(** * Funda price scraper: a shallow embedding of [src/prices.py]

    The development follows the module top-down in the order a reader of
    the Python meets its ingredients:

    - [Py]: Python [str] values as sequences of code points, exceptions,
      and the built-ins the module relies on ([str.replace], [str.strip],
      [int(str)], [str(int)], [max]);
    - [Soup]: the tree that [bs4] hands to the module and the three queries
      made on it ([select], [find_all], [find]) together with [.text];
    - [Csv]: what [csv.writer] emits under the options of [settings.py];
    - [Prices]: the functions of [prices.py] themselves, the effectful ones
      in a state-and-exception monad over the network and the file system;
    - the theorems about them. *)

From Stdlib Require Import ZArith NArith Lia.
From Stdlib Require Import Strings.String Strings.Ascii.
From Stdlib Require Import Numbers.DecimalString.
From Stdlib Require Numbers.DecimalPos Numbers.DecimalZ.
From stdpp Require Import base option list gmap.

Set Warnings "-register-all".

Local Open Scope N_scope.

(** ** Python values, exceptions and built-ins *)

Module Py.

(** A [str] is a sequence of Unicode code points. *)
Abbreviation str := (list N).

Fixpoint bytes_of_string (s : string) : list N :=
  match s with
  | EmptyString => []
  | String a s' => N_of_ascii a :: bytes_of_string s'
  end.

(** Source files are UTF-8: a literal of the Python text is read here the
    way the interpreter reads it, by decoding its bytes. *)
Fixpoint utf8_decode (bs : list N) : str :=
  match bs with
  | [] => []
  | b0 :: r0 =>
    if b0 <? 128 then b0 :: utf8_decode r0 else
    match r0 with
    | [] => [b0]
    | b1 :: r1 =>
      if b0 <? 224 then (b0 mod 32 * 64 + b1 mod 64) :: utf8_decode r1 else
      match r1 with
      | [] => [b0; b1]
      | b2 :: r2 =>
        if b0 <? 240
        then (b0 mod 16 * 4096 + b1 mod 64 * 64 + b2 mod 64) :: utf8_decode r2
        else
        match r2 with
        | [] => [b0; b1; b2]
        | b3 :: r3 =>
          (b0 mod 8 * 262144 + b1 mod 64 * 4096 + b2 mod 64 * 64 + b3 mod 64)
            :: utf8_decode r3
        end
      end
    end
  end.

Definition lit (s : string) : str := utf8_decode (bytes_of_string s).

(** *** [str.replace(old, new)]

    Occurrences of [old] are found left to right and do not overlap: after
    a match the scan resumes behind it.  [skip] counts the characters of
    the current match that are still to be passed over. *)

Fixpoint startswith (s prefix : str) {struct prefix} : bool :=
  match prefix, s with
  | [], _ => true
  | _ :: _, [] => false
  | p :: prefix', c :: s' => (c =? p) && startswith s' prefix'
  end.

Fixpoint replace_from (old new : str) (skip : nat) (s : str) : str :=
  match s with
  | [] => []
  | c :: s' =>
    match skip with
    | S k => replace_from old new k s'
    | O =>
      if startswith s old
      then new ++ replace_from old new (length old - 1)%nat s'
      else c :: replace_from old new 0 s'
    end
  end.

(** With an empty [old], Python inserts [new] before every character and
    at the end. *)
Definition replace (s old new : str) : str :=
  match old with
  | [] => new ++ flat_map (λ c, c :: new) s
  | _ :: _ => replace_from old new 0 s
  end.

(** *** [str.strip()]

    White space is what [str.isspace] accepts ([Py_UNICODE_ISSPACE]). *)

Definition Py_UNICODE_ISSPACE (c : N) : bool :=
  ((9 <=? c) && (c <=? 13)) || ((28 <=? c) && (c <=? 32))
  || (c =? 133) || (c =? 160) || (c =? 5760)
  || ((8192 <=? c) && (c <=? 8202))
  || (c =? 8232) || (c =? 8233) || (c =? 8239) || (c =? 8287) || (c =? 12288).

Fixpoint lstrip (s : str) : str :=
  match s with
  | [] => []
  | c :: s' => if Py_UNICODE_ISSPACE c then lstrip s' else s
  end.

Definition rstrip (s : str) : str := reverse (lstrip (reverse s)).

Definition strip (s : str) : str := rstrip (lstrip s).

(** *** [str(int)] *)

Definition str_of_int (z : Z) : str :=
  bytes_of_string (NilZero.string_of_int (Z.to_int z)).

(** *** Exceptions

    Only the exceptions that the module can meet are listed.  A [result]
    is either a value or a raised exception. *)

Inductive exception : Type :=
  | ValueError_invalid_literal (s : str)  (* int(): invalid literal *)
  | ValueError_exceeds_limit              (* int(): too many digits *)
  | ValueError_max_empty                  (* max() arg is an empty sequence *)
  | TypeError_int_argument                (* int() of an attribute list *)
  | KeyError (key : str)                  (* tag[key] without that attribute *)
  | AttributeError_NoneType_text          (* None.text *)
  | RequestException (errno : N)          (* raised inside requests.get *)
  | OSError (errno : N)                   (* raised by open() *)
  | UnicodeEncodeError.                   (* raised by f.write() *)

Inductive result (A : Type) : Type :=
  | Ok (a : A)
  | Raise (e : exception).
Arguments Ok {A} a.
Arguments Raise {A} e.

#[export] Instance result_ret : MRet result := λ A a, Ok a.
#[export] Instance result_bind : MBind result := λ A B f m,
  match m with
  | Ok a => f a
  | Raise e => Raise e
  end.

(** *** [int(str)]

    CPython first maps the string to ASCII
    ([_PyUnicode_TransformDecimalAndSpaceToASCII]): characters below 127
    are kept, other white space becomes a blank, other decimal digits
    become their ASCII digit, and anything else becomes ['?'].  The table
    of decimal digits beyond ASCII belongs to the interpreter's Unicode
    database and is a parameter here.  [PyLong_FromString] then reads
    blanks, an optional sign, digits with single underscores between them,
    and blanks. *)

Definition Py_ISSPACE (c : N) : bool :=
  ((9 <=? c) && (c <=? 13)) || (c =? 32).

Definition is_digit (c : N) : bool := (48 <=? c) && (c <=? 57).

(** [sys.get_int_max_str_digits()], at its default. *)
Definition int_max_str_digits : nat := 4300.

Fixpoint skip_space (s : str) : str :=
  match s with
  | [] => []
  | c :: s' => if Py_ISSPACE c then skip_space s' else s
  end.

(** Scans digits and underscores; [prev_us] tells whether the previous
    character was an underscore.  Returns the value read, the number of
    digits and the unread rest, or [None] on a doubled or dangling
    underscore. *)
Fixpoint scan_digits (prev_us : bool) (acc : Z) (digits : nat) (s : str)
  : option (Z * nat * str) :=
  match s with
  | [] => if prev_us then None else Some (acc, digits, [])
  | c :: s' =>
    if is_digit c
    then scan_digits false (10 * acc + Z.of_N (c - 48)) (S digits) s'
    else if c =? 95
    then if prev_us then None else scan_digits true acc digits s'
    else if prev_us then None else Some (acc, digits, s)
  end.

(** An optional sign; white space may not follow it. *)
Definition read_sign (s : str) : Z * str :=
  match s with
  | [] => (1%Z, [])
  | c :: r =>
    if c =? 43 then (1%Z, r)
    else if c =? 45 then ((-1)%Z, r)
    else (1%Z, s)
  end.

(** [None] stands for the syntax error that [int] turns into its
    "invalid literal" [ValueError]. *)
Definition PyLong_FromString (s : str) : option (result Z) :=
  let '(sign, s2) := read_sign (skip_space s) in
  if startswith s2 [95] then None else
  match scan_digits false 0 0 s2 with
  | None => None
  | Some (v, digits, rest) =>
    if decide (int_max_str_digits < digits)%nat
    then Some (Raise ValueError_exceeds_limit)
    else
      match digits, skip_space rest with
      | S _, [] => Some (Ok (sign * v)%Z)
      | _, _ => None
      end
  end.

Section Int.
Variable Py_UNICODE_TODECIMAL : N → option N.

Definition to_ascii (ch : N) : N :=
  if ch <? 127 then ch
  else if Py_UNICODE_ISSPACE ch then 32
  else match Py_UNICODE_TODECIMAL ch with
       | Some d => if d <? 10 then 48 + d else 63
       | None => 63
       end.

Definition int (s : str) : result Z :=
  match PyLong_FromString (map to_ascii s) with
  | Some r => r
  | None => Raise (ValueError_invalid_literal s)
  end.
End Int.

(** *** [max] over the values a generator yields

    The generator is consumed from the left, so the first element that
    raises decides the outcome; an exhausted empty generator makes [max]
    raise. *)

Definition max (xs : list Z) : result Z :=
  match xs with
  | [] => Raise ValueError_max_empty
  | x :: xs' => Ok (foldl Z.max x xs')
  end.

(** [range(lo, hi)] *)
Definition range (lo hi : Z) : list Z :=
  map (λ k : nat, (lo + Z.of_nat k)%Z) (seq 0 (Z.to_nat (hi - lo))).

End Py.

(** ** The parse tree of [bs4]

    A document is a tree of tags, text nodes and comments.  The parser
    itself ([html.parser] behind [bs4.BeautifulSoup]) stays abstract; it
    lower-cases tag and attribute names and splits the [class] attribute
    into a list, which is why names are compared as they stand. *)

Module Soup.
Import Py.

Inductive attr_value : Type :=
  | AttrStr (s : str)
  | AttrList (l : list str).

Inductive node : Type :=
  | NavigableString (s : str)
  | Comment (s : str)
  | Tag (name : str) (attrs : gmap str attr_value) (contents : list node).

(** The root object of a document; [BeautifulSoup('', 'html.parser')] has
    no contents. *)
Definition BeautifulSoup (contents : list node) : node :=
  Tag (lit "[document]") ∅ contents.

Definition empty_soup : node := BeautifulSoup [].

(** [tag.descendants]: every node below [tag], in document order. *)
Fixpoint descendants (n : node) : list node :=
  match n with
  | Tag _ _ cs => flat_map (λ c, c :: descendants c) cs
  | _ => []
  end.

(** [tag.text]: the text nodes below [tag], concatenated; comments are
    left out. *)
Fixpoint text (n : node) : str :=
  match n with
  | NavigableString s => s
  | Comment _ => []
  | Tag _ _ cs => flat_map text cs
  end.

Definition join_blank (l : list str) : str :=
  match l with
  | [] => []
  | x :: l' => x ++ flat_map (λ y, 32 :: y) l'
  end.

(** How [find_all(..., class_=c)] compares [c] with a [class] attribute:
    against every class of the list, and against the list joined up. *)
Definition class_matches (c : str) (attrs : gmap str attr_value) : bool :=
  match attrs !! lit "class" with
  | Some (AttrList l) => bool_decide (c ∈ l) || bool_decide (join_blank l = c)
  | Some (AttrStr v) => bool_decide (v = c)
  | None => false
  end.

Definition is_tag_with_class (name c : str) (n : node) : bool :=
  match n with
  | Tag name' attrs _ => bool_decide (name' = name) && class_matches c attrs
  | _ => false
  end.

(** [tag.find_all(name, class_=c)] *)
Definition find_all (n : node) (name c : str) : list node :=
  filter (λ d, is_tag_with_class name c d = true) (descendants n).

(** [tag.find(name, class_=c)]: the first match, or [None]. *)
Definition find (n : node) (name c : str) : option node :=
  head (find_all n name c).

Definition is_tag_with_attr (name key : str) (n : node) : bool :=
  match n with
  | Tag name' attrs _ => bool_decide (name' = name) && bool_decide (is_Some (attrs !! key))
  | _ => false
  end.

(** [tag.select('name[key]')] *)
Definition select (n : node) (name key : str) : list node :=
  filter (λ d, is_tag_with_attr name key d = true) (descendants n).

(** [tag[key]] *)
Definition getitem (n : node) (key : str) : result attr_value :=
  match n with
  | Tag _ attrs _ =>
    match attrs !! key with
    | Some v => Ok v
    | None => Raise (KeyError key)
    end
  | _ => Raise (KeyError key)
  end.

(** [x.text] where [x] is what [find] returned. *)
Definition text_of (x : option node) : result str :=
  match x with
  | Some n => Ok (text n)
  | None => Raise AttributeError_NoneType_text
  end.

End Soup.

(** ** [csv.writer]

    The writer is the one [settings.csv_options] configures: every field
    is quoted ([QUOTE_ALL]), a quote character inside a field is doubled,
    and a row ends in the default line terminator. *)

Module Csv.
Import Py.

Record csv_options : Type := { delimiter : N; quotechar : N }.

Inductive field : Type :=
  | FStr (s : str)
  | FInt (z : Z).

Definition field_str (f : field) : str :=
  match f with
  | FStr s => s
  | FInt z => str_of_int z
  end.

Definition lineterminator : str := [13; 10].

Section Writer.
Variable opts : csv_options.

Definition quoted (s : str) : str :=
  quotechar opts
    :: flat_map (λ c, if c =? quotechar opts then [c; c] else [c]) s
    ++ [quotechar opts].

Fixpoint join_fields (fs : list str) : str :=
  match fs with
  | [] => []
  | [f] => f
  | f :: fs' => f ++ delimiter opts :: join_fields fs'
  end.

Definition row_text (row : list field) : str :=
  join_fields (map (λ f, quoted (field_str f)) row) ++ lineterminator.

Definition rows_text (rows : list (list field)) : str :=
  flat_map row_text rows.
End Writer.

End Csv.

(** ** [settings.py] *)

Module Settings.
Import Py Csv.

Definition url : str := lit "https://www.funda.nl/koop/maarssen".

Definition request_headers : list (str * str) :=
  [(lit "User-Agent",
    lit "Mozilla/5.0 (Windows NT 10.0; Win64; x64) AppleWebKit/537.36 (KHTML, like Gecko) Chrome/110.0.0.0 Safari/537.36 Edg/110.0.1587.50")].

(** [csv_options]: the delimiter is the comma, the quotechar the double
    quote, and quoting is [QUOTE_ALL]. *)
Definition csv_options : Csv.csv_options :=
  {| delimiter := 44; quotechar := 34 |}.

End Settings.

(** ** [prices.py] *)

Module Prices.
Import Py Soup Csv.

Definition HEADERS := Settings.request_headers.
Definition CSV_OPTIONS := Settings.csv_options.
Definition COLUMN_HEADERS : list field :=
  [FStr (lit "Address"); FStr (lit "Price (euro)")].

(** What [requests.get] returns. *)
Record Response : Type := { status_code : Z; content : list N }.

(** The world the module acts on: the network, whose state [requests.get]
    may change, and the file system, given by the text of each file and by
    the error, if any, that opening a path for writing meets. *)
Record World (Net : Type) : Type := {
  net : Net;
  files : gmap str str;
  open_error : str → option N
}.
Arguments net {Net} w.
Arguments files {Net} w.
Arguments open_error {Net} w.

Definition set_net {Net} (w : World Net) (n : Net) : World Net :=
  {| net := n; files := files w; open_error := open_error w |}.

Definition set_files {Net} (w : World Net) (fs : gmap str str) : World Net :=
  {| net := net w; files := fs; open_error := open_error w |}.

(** Effectful functions thread the world and may raise. *)
Definition IO (Net A : Type) : Type := World Net → result A * World Net.

#[export] Instance IO_ret {Net} : MRet (IO Net) := λ A a w, (Ok a, w).
#[export] Instance IO_bind {Net} : MBind (IO Net) := λ A B f m w,
  match m w with
  | (Ok a, w') => f a w'
  | (Raise e, w') => (Raise e, w')
  end.

(** A pure computation that may raise, run inside [IO]. *)
Definition lift {Net A} (r : result A) : IO Net A := λ w, (r, w).

(** [open(path, 'wt')] creates or truncates the file. *)
Definition open_wt {Net} (path : str) : IO Net unit := λ w,
  match open_error w path with
  | Some errno => (Raise (OSError errno), w)
  | None => (Ok (), set_files w (<[path := []]> (files w)))
  end.

(** The file is opened with [encoding='utf8'], which has no encoding for
    the surrogate code points. *)
Definition encodable (s : str) : bool :=
  forallb (λ c, negb ((55296 <=? c) && (c <=? 57343))) s.

(** [f.write(s)] on the file opened at [path].  The text is encoded
    before any of it is written: a text that cannot be encoded raises and
    leaves the file with what was written before. *)
Definition write {Net} (path : str) (s : str) : IO Net unit := λ w,
  if encodable s
  then (Ok (),
        set_files w (<[path := default [] (files w !! path) ++ s]> (files w)))
  else (Raise UnicodeEncodeError, w).

Definition writerow {Net} (f : str) (row : list field) : IO Net unit :=
  write f (row_text CSV_OPTIONS row).

Fixpoint writerows {Net} (f : str) (rows : list (list field)) : IO Net unit :=
  match rows with
  | [] => mret ()
  | row :: rows' => writerow f row;; writerows f rows'
  end.

(** A tuple [(address, price)] as the row the writer sees. *)
Definition row_of_tuple (t : str * Z) : list field :=
  [FStr t.1; FInt t.2].

Section Prices.
Context {Net : Type}.
(** [requests.get(url, headers=...)] *)
Variable requests_get : str → list (str * str) → Net → result Response * Net.
(** [bs4.BeautifulSoup(content, 'html.parser')] on the bytes of a body *)
Variable html_parser : list N → list node.
(** the decimal digits of the interpreter's Unicode database *)
Variable Py_UNICODE_TODECIMAL : N → option N.

Definition request (url : str) (headers : list (str * str))
  : IO Net Response := λ w,
  let '(r, n) := requests_get url headers (net w) in
  (r, set_net w n).

Definition clean_address (raw_address : str) : str :=
  strip raw_address.

Definition clean_price (raw_price : str) : result Z :=
  int Py_UNICODE_TODECIMAL
    (replace
      (replace
        (replace
          (replace
            (replace
              (replace raw_price (lit "€ ") [])
              (lit " k.k.") [])
            (lit " v.o.n.") [])
          (lit "Price on request") (lit "0"))
        (lit ".") [])
      (lit ",") []).

Definition parse_address (house_html : node) : result str :=
  raw_address ←
    text_of (find house_html (lit "h2") (lit "search-result__header-title"));
  mret (clean_address raw_address).

Definition parse_price (house_html : node) : result Z :=
  raw_price ←
    text_of (find house_html (lit "span") (lit "search-result-price"));
  clean_price raw_price.

Definition price_row (house_html : node) : result (str * Z) :=
  address ← parse_address house_html;
  price ← parse_price house_html;
  mret (address, price).

Definition get_html (url : str) : IO Net node :=
  resp ← request url HEADERS;
  if decide (status_code resp = 200%Z)
  then mret (BeautifulSoup (html_parser (content resp)))
  else mret empty_soup.

(** [int(a['data-pagination-page'])] *)
Definition page_number (a : node) : result Z :=
  v ← getitem a (lit "data-pagination-page");
  match v with
  | AttrStr s => int Py_UNICODE_TODECIMAL s
  | AttrList _ => Raise TypeError_int_argument
  end.

Definition construct_page_urls (base_url : str) : IO Net (list str) :=
  html ← get_html base_url;
  let page_links := select html (lit "a") (lit "data-pagination-page") in
  num_of_pages ← lift (mapM page_number page_links ≫= max);
  mret (map (λ i, base_url ++ lit "/p" ++ str_of_int i)
            (range 1 (num_of_pages + 1))).

(** The loop of [search], with [search_results] as its accumulator. *)
Fixpoint search_loop (search_results : list node) (page_urls : list str)
  : IO Net (list node) :=
  match page_urls with
  | [] => mret search_results
  | url :: page_urls' =>
    html ← get_html url;
    search_loop
      (search_results ++ find_all html (lit "li") (lit "search-result"))
      page_urls'
  end.

Definition search (page_urls : list str) : IO Net (list node) :=
  search_loop [] page_urls.

Definition export_prices (base_url csv_file : str) : IO Net unit :=
  page_urls ← construct_page_urls base_url;
  houses ← search page_urls;
  price_list ← lift (mapM price_row houses);
  open_wt csv_file;;
  writerow csv_file COLUMN_HEADERS;;
  writerows csv_file (map row_of_tuple price_list).

(** [main.py] *)
Definition main (base_url csv_file : str) : IO Net unit :=
  export_prices base_url csv_file.
End Prices.

End Prices.

(** ** The price normalisation in the words of the specification

    An ordered list of (pattern, replacement) rules applied in sequence,
    followed by the removal of every ['.'] and every [','], followed by
    the integer parse. *)

Module Spec.
Import Py.

Definition substitutions : list (str * str) :=
  [ (lit "€ ", []);
    (lit " k.k.", []);
    (lit " v.o.n.", []);
    (lit "Price on request", lit "0") ].

Definition substitute (s : str) (rule : str * str) : str :=
  replace s rule.1 rule.2.

Definition remove_all (c : N) (s : str) : str :=
  filter (λ x, x ≠ c) s.

Definition normalize (raw : str) : str :=
  remove_all 44 (remove_all 46 (foldl substitute raw substitutions)).

Definition parsePrice (todecimal : N → option N) (raw : str) : result Z :=
  int todecimal (normalize raw).

(** The characters [int] passes over before the sign: ASCII blanks, and
    white space beyond ASCII. *)
Definition int_blank (c : N) : bool :=
  if c <? 127 then Py_ISSPACE c else Py_UNICODE_ISSPACE c.

Fixpoint first_nonblank (s : str) : option N :=
  match s with
  | [] => None
  | c :: s' => if int_blank c then first_nonblank s' else Some c
  end.

(** The URL of the page at position [i], counted from 0, and the URLs of
    pages 1 to [n]. *)
Definition nth_page_url (base_url : str) (i : nat) : str :=
  base_url ++ lit "/p" ++ str_of_int (Z.of_nat (S i)).

Definition page_urls (base_url : str) (n : Z) : list str :=
  map (nth_page_url base_url) (seq 0 (Z.to_nat n)).

End Spec.

(** ** A small site to run the module on

    The network is a table from URL to response that also logs the
    requests made; the parser is a table from body to tree. *)

Module Fixture.
Import Py Soup Csv Prices.

Definition Net : Type := list str.

Definition not_found : Response := {| status_code := 404; content := [] |}.

Definition ok (body : string) : Response :=
  {| status_code := 200; content := bytes_of_string body |}.

Definition requests_get (site : gmap str Response)
  : str → list (str * str) → Net → result Response * Net :=
  λ url _ log, (Ok (default not_found (site !! url)), log ++ [url]).

Definition html_parser (trees : gmap (list N) (list node)) (body : list N)
  : list node :=
  default [] (trees !! body).

Definition no_decimals : N → option N := λ _, None.

Definition classes (cs : list string) : gmap str attr_value :=
  {[ lit "class" := AttrList (map lit cs) ]}.

Definition page_link (n : string) : node :=
  Tag (lit "a") {[ lit "data-pagination-page" := AttrStr (lit n) ]}
      [NavigableString (lit n)].

Definition listing (address price : string) : node :=
  Tag (lit "li") (classes ["search-result"]%string)
    [ Tag (lit "div") (classes ["search-result-content"]%string)
        [ Tag (lit "h2")
              (classes ["search-result__header-title"; "fd-m-none"]%string)
              [NavigableString (lit address)];
          Comment (lit " price ");
          Tag (lit "span") (classes ["search-result-price"]%string)
              [NavigableString (lit price)] ] ].

Definition base_url : str := lit "https://x/koop/y".
Definition csv_file : str := lit "data/price_list.csv".

Definition house1 : node := listing "  Main St 1  " "€ 350.000 k.k.".
Definition house2 : node := listing "Side Rd 2a" "€ 1,250.000 v.o.n.".
Definition house3 : node := listing " Quay 3 " "Price on request".
Definition house_bad : node := listing "Mill Ln 4" "€ 400.000 - € 450.000".

Definition trees : gmap (list N) (list node) :=
  {[ bytes_of_string "seed" :=
       [Tag (lit "nav") ∅ [page_link "1"; page_link "2"]];
     bytes_of_string "seed3" :=
       [Tag (lit "nav") ∅ [page_link "1"; page_link "3"; page_link "2"]];
     bytes_of_string "bare" := [Tag (lit "p") ∅ [NavigableString (lit "-")]];
     bytes_of_string "page1" := [Tag (lit "ol") ∅ [house1; house2]];
     bytes_of_string "page2" := [Tag (lit "ol") ∅ [house3]];
     bytes_of_string "page2bad" := [Tag (lit "ol") ∅ [house_bad; house3]] ]}.

(** Two pages of results, three houses. *)
Definition site : gmap str Response :=
  {[ base_url := ok "seed";
     base_url ++ lit "/p1" := ok "page1";
     base_url ++ lit "/p2" := ok "page2" ]}.

(** The same, with a price on page 2 that the substitutions do not cover. *)
Definition site_bad : gmap str Response :=
  <[ base_url ++ lit "/p2" := ok "page2bad" ]> site.

(** Pagination up to page 3. *)
Definition site3 : gmap str Response := {[ base_url := ok "seed3" ]}.

(** Pagination found, but no result page is served. *)
Definition site_down : gmap str Response := {[ base_url := ok "seed" ]}.

(** A seed page without pagination links. *)
Definition site_bare : gmap str Response := {[ base_url := ok "bare" ]}.

(** Nothing requested yet; one unrelated file on disk. *)
Definition world0 : World Net :=
  {| net := [];
     files := {[ lit "README" := lit "funda" ]};
     open_error := λ _, None |}.

(** The world after the three requests of a run. *)
Definition world_fetched : World Net :=
  set_net world0 [base_url; base_url ++ lit "/p1"; base_url ++ lit "/p2"].

End Fixture.

(** ** Vocabulary for statements about runs *)

Module Run.
Import Py Soup Csv Prices.

Section Run.
Context {Net : Type}.
Variable requests_get : str → list (str * str) → Net → result Response * Net.
Variable html_parser : list N → list node.

(** The document [get_html] makes of a response. *)
Definition document_of (resp : Response) : node :=
  if decide (status_code resp = 200%Z)
  then BeautifulSoup (html_parser (content resp))
  else empty_soup.

(** Every request for one of [urls], made in this order from the network
    state [n], is answered with a status other than 200. *)
Fixpoint not_served (urls : list str) (n : Net) : Prop :=
  match urls with
  | [] => True
  | url :: urls' =>
    ∃ resp n', requests_get url HEADERS n = (Ok resp, n')
               ∧ status_code resp ≠ 200%Z
               ∧ not_served urls' n'
  end.
End Run.

(** The file system is the same in both worlds. *)
Definition same_disk {Net} (w w' : World Net) : Prop :=
  files w' = files w ∧ open_error w' = open_error w.

(** The number of rows of a file written under [CSV_OPTIONS], counted the
    way a reader delimits them: by the line feeds outside quotes.
    [in_quotes] tells whether a quoted field is open. *)
Fixpoint count_rows (in_quotes : bool) (s : str) : nat :=
  match s with
  | [] => 0
  | c :: s' =>
    if c =? quotechar CSV_OPTIONS then count_rows (negb in_quotes) s'
    else if in_quotes then count_rows true s'
    else if c =? 10 then S (count_rows false s')
    else count_rows false s'
  end.

(** The outcome of writing [rows] behind the text [t] of the open file,
    and the text the file holds afterwards: the writer stops at the first
    row that cannot be encoded. *)
Fixpoint written (rows : list (list field)) (t : str) : result () * str :=
  match rows with
  | [] => (Ok (), t)
  | row :: rows' =>
    if encodable (row_text CSV_OPTIONS row)
    then written rows' (t ++ row_text CSV_OPTIONS row)
    else (Raise UnicodeEncodeError, t)
  end.

(** The listing fragments of a page, in document order. *)
Definition listings (html : node) : list node :=
  find_all html (lit "li") (lit "search-result").

End Run.

(** ** Further vocabulary: the requests made, and reading a field back *)

Module Trace.
Import Py Soup Csv Prices.

(** A network that also records, in order, the URL and the headers of
    every request made on it. *)
Definition logged {Net}
    (requests_get : str → list (str * str) → Net → result Response * Net)
  : str → list (str * str) → Net * list (str * list (str * str))
    → result Response * (Net * list (str * list (str * str))) :=
  λ url headers s,
    let '(r, n) := requests_get url headers s.1 in
    (r, (n, s.2 ++ [(url, headers)])).

(** The digits of a decimal numeral, most significant first. *)
Fixpoint uint_digits (d : Decimal.uint) : list N :=
  match d with
  | Decimal.Nil => []
  | Decimal.D0 d' => 0 :: uint_digits d'
  | Decimal.D1 d' => 1 :: uint_digits d'
  | Decimal.D2 d' => 2 :: uint_digits d'
  | Decimal.D3 d' => 3 :: uint_digits d'
  | Decimal.D4 d' => 4 :: uint_digits d'
  | Decimal.D5 d' => 5 :: uint_digits d'
  | Decimal.D6 d' => 6 :: uint_digits d'
  | Decimal.D7 d' => 7 :: uint_digits d'
  | Decimal.D8 d' => 8 :: uint_digits d'
  | Decimal.D9 d' => 9 :: uint_digits d'
  end.

(** Reads a field written under [CSV_OPTIONS] from behind its opening
    quote: a doubled quote stands for a quote, a single one ends the
    field.  Returns the field and the text behind the closing quote. *)
Fixpoint unquote (s : str) : option (str * str) :=
  match s with
  | [] => None
  | c :: s' =>
    if c =? quotechar CSV_OPTIONS
    then match s' with
         | [] => Some ([], [])
         | c' :: s'' =>
           if c' =? quotechar CSV_OPTIONS
           then prod_map (cons c) id <$> unquote s''
           else Some ([], s')
         end
    else prod_map (cons c) id <$> unquote s'
  end.

End Trace.

(** ** The small site when things go wrong *)

Module Outage.
Import Py Soup Csv Prices Fixture.

(** A network on which every connection is refused. *)
Definition requests_get_refused
  : str → list (str * str) → Net → result Response * Net :=
  λ url _ log, (Raise (RequestException 111), log ++ [url]).

(** The site is served until [served] requests have been made; from then
    on connections are refused. *)
Definition requests_get_until (served : nat) (site : gmap str Response)
  : str → list (str * str) → Net → result Response * Net :=
  λ url headers log,
    if decide (length log < served)%nat
    then requests_get site url headers log
    else requests_get_refused url headers log.

(** The output file cannot be opened: its directory does not exist. *)
Definition world_locked : World Net :=
  {| net := [];
     files := {[ lit "README" := lit "funda" ]};
     open_error := λ path, if decide (path = csv_file) then Some 2 else None |}.

(** A price list is on disk from an earlier run. *)
Definition world_rerun : World Net :=
  set_files world0 (<[csv_file := lit "stale"]> (files world0)).

Definition house_blank : node := listing "   " "€ 1".

Definition trees : gmap (list N) (list node) :=
  {[ bytes_of_string "seed0" :=
       [Tag (lit "nav") ∅ [page_link "0"; page_link "-1"]];
     bytes_of_string "seedx" :=
       [Tag (lit "nav") ∅ [page_link "1"; page_link "next"; page_link "2"]];
     bytes_of_string "seed" :=
       [Tag (lit "nav") ∅ [page_link "1"; page_link "2"]];
     bytes_of_string "page1" := [Tag (lit "ol") ∅ [house1; house2]];
     bytes_of_string "page2" := [Tag (lit "ol") ∅ [house3]] ]}.

(** A house whose address starts with a lone surrogate. *)
Definition house_surrogate : node :=
  Tag (lit "li") (classes ["search-result"]%string)
    [ Tag (lit "h2") (classes ["search-result__header-title"]%string)
          [NavigableString (55296 :: lit "Lane 5")];
      Tag (lit "span") (classes ["search-result-price"]%string)
          [NavigableString (lit "€ 1")] ].

Definition trees_surrogate : gmap (list N) (list node) :=
  <[ bytes_of_string "page2" :=
       [Tag (lit "ol") ∅ [house_surrogate; house3]] ]> trees.

(** Pagination links that point at no page. *)
Definition site0 : gmap str Response := {[ base_url := ok "seed0" ]}.

(** A pagination link whose page number is not a number. *)
Definition sitex : gmap str Response := {[ base_url := ok "seedx" ]}.

End Outage.

(** * Properties *)

(** ** Facts about the built-ins *)

Module PyFacts.
Import Py.

Lemma startswith_app (p t : str) : startswith (p ++ t) p = true.
Proof.
  induction p as [|c p IH]; simpl; [done|].
  by rewrite N.eqb_refl, IH.
Qed.

Lemma startswith_inv (s p : str) :
  startswith s p = true → ∃ t, s = p ++ t.
Proof.
  revert s; induction p as [|c p IH]; intros s H.
  - by exists s.
  - destruct s as [|x s]; simpl in H; [done|].
    apply andb_prop in H as [Hx Hs].
    apply N.eqb_eq in Hx as ->.
    destruct (IH _ Hs) as [t ->]. by exists t.
Qed.

(** Characters still owed to a match are passed over unchanged. *)
Lemma replace_from_skip (old new : str) (k : nat) (s : str) :
  replace_from old new k s = replace_from old new 0 (drop k s).
Proof.
  revert k; induction s as [|c s IH]; intros [|k]; simpl; done.
Qed.

(** The two defining equations of [str.replace] for a non-empty [old]. *)
Lemma replace_match (old new t : str) :
  old ≠ [] → replace (old ++ t) old new = new ++ replace t old new.
Proof.
  destruct old as [|c old]; [done|intros _].
  unfold replace. change ((c :: old) ++ t) with (c :: (old ++ t)).
  cbn [replace_from].
  change (c :: old ++ t) with ((c :: old) ++ t).
  rewrite startswith_app, replace_from_skip.
  replace (length (c :: old) - 1)%nat with (length old) by (simpl; lia).
  by rewrite drop_app_length.
Qed.

Lemma replace_no_match (old new : str) (c : N) (s : str) :
  old ≠ [] → startswith (c :: s) old = false →
  replace (c :: s) old new = c :: replace s old new.
Proof.
  destruct old as [|o old]; [done|intros _ H].
  unfold replace. cbn [replace_from]. by rewrite H.
Qed.

Lemma replace_nil (old new : str) : old ≠ [] → replace [] old new = [].
Proof. by destruct old. Qed.

(** Replacing a single character by nothing deletes its occurrences. *)
Lemma replace_char_nil (c : N) (s : str) :
  replace s [c] [] = filter (λ x, x ≠ c) s.
Proof.
  unfold replace. induction s as [|x s IH]; [done|].
  cbn [replace_from startswith length]. rewrite andb_true_r, filter_cons.
  destruct (N.eqb_spec x c) as [->|Hne]; case_decide; try done.
  by rewrite <- IH.
Qed.

(** *** [strip] *)

Lemma lstrip_split (s : str) :
  ∃ ws, s = ws ++ lstrip s ∧ Forall (λ c, Py_UNICODE_ISSPACE c = true) ws.
Proof.
  induction s as [|c s (ws & Hs & Hws)]; [by exists []|].
  simpl. destruct (Py_UNICODE_ISSPACE c) eqn:Hc.
  - exists (c :: ws). split; [by rewrite Hs at 1|by constructor].
  - by exists [].
Qed.

Lemma lstrip_head (s : str) (c : N) :
  head (lstrip s) = Some c → Py_UNICODE_ISSPACE c = false.
Proof.
  induction s as [|x s IH]; simpl; [done|].
  destruct (Py_UNICODE_ISSPACE x) eqn:Hx; [done|].
  simpl. by intros [= <-].
Qed.

Lemma lstrip_id (s : str) :
  (∀ c, head s = Some c → Py_UNICODE_ISSPACE c = false) → lstrip s = s.
Proof.
  destruct s as [|x s]; [done|]. intros H. simpl. by rewrite (H x).
Qed.

Lemma lstrip_lstrip (s : str) : lstrip (lstrip s) = lstrip s.
Proof. apply lstrip_id, lstrip_head. Qed.

Lemma rstrip_split (s : str) :
  ∃ ws, s = rstrip s ++ ws ∧ Forall (λ c, Py_UNICODE_ISSPACE c = true) ws.
Proof.
  destruct (lstrip_split (reverse s)) as (ws & Hs & Hws).
  exists (reverse ws). split.
  - unfold rstrip. rewrite <- reverse_app, <- Hs. by rewrite reverse_involutive.
  - by apply Forall_reverse.
Qed.

Lemma rstrip_last (s : str) (c : N) :
  last (rstrip s) = Some c → Py_UNICODE_ISSPACE c = false.
Proof.
  unfold rstrip. rewrite last_reverse. apply lstrip_head.
Qed.

Lemma rstrip_rstrip (s : str) : rstrip (rstrip s) = rstrip s.
Proof.
  unfold rstrip. by rewrite reverse_involutive, lstrip_lstrip.
Qed.

(** Stripping on the right keeps the first character, if any is left. *)
Lemma rstrip_head (s : str) (c : N) :
  head (rstrip s) = Some c → head s = Some c.
Proof.
  destruct (rstrip_split s) as (ws & Hs & _). intros H.
  rewrite Hs. by destruct (rstrip s).
Qed.

Lemma strip_head (s : str) (c : N) :
  head (strip s) = Some c → Py_UNICODE_ISSPACE c = false.
Proof. intros H. by apply rstrip_head, lstrip_head in H. Qed.

Lemma strip_last (s : str) (c : N) :
  last (strip s) = Some c → Py_UNICODE_ISSPACE c = false.
Proof. apply rstrip_last. Qed.

Lemma strip_split (s : str) :
  ∃ l r, s = l ++ strip s ++ r
         ∧ Forall (λ c, Py_UNICODE_ISSPACE c = true) l
         ∧ Forall (λ c, Py_UNICODE_ISSPACE c = true) r.
Proof.
  destruct (lstrip_split s) as (l & Hl & Hws).
  destruct (rstrip_split (lstrip s)) as (r & Hr & Hwr).
  exists l, r. unfold strip. by rewrite <- Hr.
Qed.

Lemma strip_strip (s : str) : strip (strip s) = strip s.
Proof.
  unfold strip at 1. rewrite (lstrip_id (strip s)) by apply strip_head.
  apply rstrip_rstrip.
Qed.

(** *** [int] *)

Lemma scan_digits_nonneg (b : bool) (acc : Z) (n : nat) (s : str) v d rest :
  (0 ≤ acc)%Z → scan_digits b acc n s = Some (v, d, rest) → (0 ≤ v)%Z.
Proof.
  revert b acc n; induction s as [|c s IH]; intros b acc n Hacc; simpl.
  - destruct b; [done|]. by intros [= <- _ _].
  - destruct (is_digit c); [apply IH; lia|].
    destruct (c =? 95).
    + destruct b; [done|]. by apply IH.
    + destruct b; [done|]. by intros [= <- _ _].
Qed.

(** A negative result can only come from a minus sign in front. *)
Lemma PyLong_FromString_negative (s : str) (n : Z) :
  PyLong_FromString s = Some (Ok n) → (n < 0)%Z →
  head (skip_space s) = Some 45.
Proof.
  unfold PyLong_FromString, read_sign.
  destruct (skip_space s) as [|c r]; intros H Hn; [done|].
  destruct (N.eqb_spec c 45) as [->|Hminus]; [done|exfalso].
  destruct (c =? 43);
    (destruct (startswith _ [95]); [done|]);
    (destruct (scan_digits _ _ _ _) as [[[v d] rest]|] eqn:Hscan; [|done]);
    apply scan_digits_nonneg in Hscan; try done;
    (destruct (decide _); [done|]);
    (destruct d; [done|]); (destruct (skip_space rest); [|done]);
    injection H as <-; lia.
Qed.

Lemma to_ascii_cases (todecimal : N → option N) (c : N) :
  (to_ascii todecimal c = c ∧ Spec.int_blank c = Py_ISSPACE c)
  ∨ (to_ascii todecimal c = 32 ∧ Spec.int_blank c = true)
  ∨ (48 ≤ to_ascii todecimal c ∧ Spec.int_blank c = false).
Proof.
  unfold to_ascii, Spec.int_blank.
  destruct (c <? 127); [by left|right].
  destruct (Py_UNICODE_ISSPACE c); [by left|right].
  destruct (todecimal c) as [d|]; [destruct (d <? 10)|]; split; done || lia.
Qed.

Lemma Py_ISSPACE_ge_48 (v : N) : 48 ≤ v → Py_ISSPACE v = false.
Proof.
  intros Hv. unfold Py_ISSPACE.
  apply orb_false_intro;
    [apply andb_false_intro2, N.leb_gt|apply N.eqb_neq]; lia.
Qed.

Lemma to_ascii_head_minus (todecimal : N → option N) (s : str) :
  head (skip_space (map (to_ascii todecimal) s)) = Some 45 →
  Spec.first_nonblank s = Some 45.
Proof.
  induction s as [|c s IH]; [done|].
  cbn [map skip_space Spec.first_nonblank].
  destruct (to_ascii_cases todecimal c) as [[-> ->]|[[-> ->]|[Hv ->]]].
  - by destruct (Py_ISSPACE c).
  - done.
  - rewrite Py_ISSPACE_ge_48 by done. simpl. intros [= Heq]. lia.
Qed.

(** *** The built-ins on small inputs *)

Example replace_leftmost_first :
  replace (lit "aaa") (lit "aa") (lit "b") = lit "ba"
  ∧ replace (lit "a,b") [] (lit "-") = lit "-a-,-b-"
  ∧ replace (lit "€ € 5") (lit "€ ") [] = lit "5".
Proof. by vm_compute. Qed.

Example strip_both_ends :
  strip (lit "  Main St 1  ") = lit "Main St 1"
  ∧ strip ([9; 28] ++ lit "a b" ++ [160; 10]) = lit "a b"
  ∧ strip (lit "   ") = [].
Proof. by vm_compute. Qed.

Example int_literals (todecimal : N → option N) :
  int todecimal (lit " +5 ") = Ok 5%Z
  ∧ int todecimal (lit "-5") = Ok (-5)%Z
  ∧ int todecimal (lit "1_000") = Ok 1000%Z
  ∧ int todecimal (lit "007") = Ok 7%Z
  ∧ int todecimal (lit "- 5") = Raise (ValueError_invalid_literal (lit "- 5"))
  ∧ int todecimal (lit "1__0") = Raise (ValueError_invalid_literal (lit "1__0"))
  ∧ int todecimal (lit "5_") = Raise (ValueError_invalid_literal (lit "5_"))
  ∧ int todecimal [] = Raise (ValueError_invalid_literal [])
  ∧ int todecimal [28; 53] = Raise (ValueError_invalid_literal [28; 53])
  ∧ int todecimal [160; 53] = Ok 5%Z.
Proof. by vm_compute. Qed.

Example int_digit_limit (todecimal : N → option N) :
  int todecimal (replicate 4301 48) = Raise ValueError_exceeds_limit
  ∧ int todecimal (replicate 4300 48) = Ok 0%Z.
Proof. by vm_compute. Qed.

Example str_of_int_signs :
  str_of_int 0 = lit "0" ∧ str_of_int 1250000 = lit "1250000"
  ∧ str_of_int (-50) = lit "-50".
Proof. by vm_compute. Qed.

End PyFacts.

(** ** The field parser *)

Section FieldParser.
Import Py Soup Prices PyFacts.
Variable todecimal : N → option N.

(** [clean_price] computes what the specification's rule list
    prescribes. *)
Lemma clean_price_parsePrice (raw : str) :
  clean_price todecimal raw = Spec.parsePrice todecimal raw.
Proof.
  unfold clean_price, Spec.parsePrice, Spec.normalize, Spec.remove_all.
  by rewrite <- !replace_char_nil.
Qed.

(** A price below zero needs a minus sign in front of the cleaned
    text. *)
Lemma clean_price_negative (raw : str) (n : Z) :
  clean_price todecimal raw = Ok n → (n < 0)%Z →
  Spec.first_nonblank (Spec.normalize raw) = Some 45.
Proof.
  rewrite clean_price_parsePrice. unfold Spec.parsePrice, int.
  destruct (PyLong_FromString _) as [r|] eqn:Hparse; [|done].
  intros -> Hn. eapply to_ascii_head_minus, PyLong_FromString_negative; eauto.
Qed.

(** The order of the substitutions matters: with the dots deleted first,
    " k.k." is no longer found and the parse fails. *)
Example dots_deleted_first :
  int todecimal
    (replace (replace (replace (lit "€ 350.000 k.k.") (lit ".") [])
                      (lit "€ ") [])
             (lit " k.k.") [])
  = Raise (ValueError_invalid_literal (lit "350000 kk")).
Proof. by vm_compute. Qed.

(** C1. For every price string, [clean_price] removes the currency
    marker, then " k.k.", then " v.o.n.", then replaces "Price on
    request" by "0", then deletes every '.' and every ',', and parses
    what is left as an integer; the three prices the specification
    lists come out as 350000, 1250000 and 0. *)
Theorem clean_price_normalizes :
  (∀ raw, clean_price todecimal raw
          = int todecimal
              (Spec.remove_all 44
                (Spec.remove_all 46
                  (foldl Spec.substitute raw
                     [ (lit "€ ", []); (lit " k.k.", []);
                       (lit " v.o.n.", []);
                       (lit "Price on request", lit "0") ]))))
  ∧ clean_price todecimal (lit "€ 350.000 k.k.") = Ok 350000%Z
  ∧ clean_price todecimal (lit "€ 1,250.000 v.o.n.") = Ok 1250000%Z
  ∧ clean_price todecimal (lit "Price on request") = Ok 0%Z.
Proof.
  split; [apply clean_price_parsePrice|].
  repeat split; vm_compute; reflexivity.
Qed.

(** C7, as amended. A price that [clean_price] returns is non-negative
    unless the cleaned text starts, after white space, with a minus
    sign; "Price on request" yields 0. *)
Theorem clean_price_nonnegative (raw : str) (n : Z) :
  clean_price todecimal raw = Ok n →
  Spec.first_nonblank (Spec.normalize raw) ≠ Some 45 →
  (0 ≤ n)%Z ∧ clean_price todecimal (lit "Price on request") = Ok 0%Z.
Proof.
  intros Hn Hsign. split; [|by vm_compute].
  destruct (Z.lt_ge_cases n 0) as [Hneg|]; [|done].
  by apply clean_price_negative in Hn.
Qed.

(** C8. [parse_address] returns the text of the fragment's title
    heading without the white space around it, and raises, as does
    [price_row], when there is no such heading. *)
Theorem parse_address_heading (house_html : node) :
  match find house_html (lit "h2") (lit "search-result__header-title") with
  | Some h2 =>
    parse_address house_html = Ok (clean_address (text h2))
    ∧ ∃ l r, text h2 = l ++ clean_address (text h2) ++ r
        ∧ Forall (λ c, Py_UNICODE_ISSPACE c = true) l
        ∧ Forall (λ c, Py_UNICODE_ISSPACE c = true) r
        ∧ (∀ c, head (clean_address (text h2)) = Some c →
                Py_UNICODE_ISSPACE c = false)
        ∧ (∀ c, last (clean_address (text h2)) = Some c →
                Py_UNICODE_ISSPACE c = false)
  | None =>
    parse_address house_html = Raise AttributeError_NoneType_text
    ∧ price_row todecimal house_html = Raise AttributeError_NoneType_text
  end
  ∧ clean_address (lit "  Main St 1  ") = lit "Main St 1".
Proof.
  split; [|by vm_compute].
  unfold price_row, parse_address.
  destruct (find _ _ _) as [h2|]; [|done].
  split; [done|].
  destruct (strip_split (text h2)) as (l & r & Hsplit & Hl & Hr).
  exists l, r. repeat split; try done.
  - apply strip_head.
  - apply strip_last.
Qed.

(** C10. [clean_address] is idempotent. *)
Theorem clean_address_idempotent (s : str) :
  clean_address (clean_address s) = clean_address s.
Proof. apply strip_strip. Qed.
End FieldParser.

(** C7, as the specification states it, fails: a price text with a minus
    sign parses to a negative price. *)
Lemma clean_price_below_zero :
  Prices.clean_price Fixture.no_decimals (Py.lit "€ -5.000 k.k.")
    = Py.Ok (-5000)%Z
  ∧ ¬ (∀ todecimal raw n,
         Prices.clean_price todecimal raw = Py.Ok n → (0 ≤ n)%Z).
Proof.
  split; [by vm_compute|].
  intros H.
  specialize (H Fixture.no_decimals (Py.lit "€ -5.000 k.k.") (-5000)%Z).
  assert (0 ≤ -5000)%Z by (apply H; by vm_compute). lia.
Qed.

(** ** The pipeline *)

Module RunFacts.
Import Py Soup Csv Prices Run.

(** *** [mapM] in [result] *)

Lemma mapM_Ok_Forall2 {A B} (f : A → result B) (l : list A) (k : list B) :
  mapM f l = Ok k → Forall2 (λ x y, f x = Ok y) l k.
Proof.
  revert k; induction l as [|x l IH]; intros k; simpl.
  - intros [= <-]. constructor.
  - destruct (f x) as [y|e] eqn:Hx; simpl; [|done].
    destruct (mapM f l) as [k'|e]; simpl; [|done].
    intros [= <-]. constructor; auto.
Qed.

Lemma mapM_Raise {A B} (f : A → result B) (l : list A) (x : A) e :
  x ∈ l → f x = Raise e → ∃ e', mapM f l = Raise e'.
Proof.
  intros Hin Hx. induction Hin as [x l|x y l Hin IH]; simpl.
  - rewrite Hx. by eexists.
  - destruct (f y); simpl; [|by eexists].
    destruct (IH Hx) as [e' ->]. by eexists.
Qed.

(** *** [max] *)

Lemma foldl_max_spec (x : Z) (xs : list Z) :
  foldl Z.max x xs ∈ x :: xs ∧ ∀ y, y ∈ x :: xs → (y ≤ foldl Z.max x xs)%Z.
Proof.
  revert x; induction xs as [|z xs IH]; intros x; simpl.
  - split; [left|]. intros y ?%list_elem_of_singleton. lia.
  - destruct (IH (Z.max x z)) as [Hin Hle]. split.
    + apply elem_of_cons in Hin as [->|Hin].
      * destruct (Z.max_spec x z) as [[_ ->]|[_ ->]]; [right|]; left.
      * by do 2 right.
    + intros y Hy.
      apply elem_of_cons in Hy as [->|[->|Hy]%elem_of_cons].
      * etransitivity; [|apply Hle; left]; lia.
      * etransitivity; [|apply Hle; left]; lia.
      * apply Hle. by right.
Qed.

Lemma max_spec (xs : list Z) (n : Z) :
  max xs = Ok n → n ∈ xs ∧ ∀ y, y ∈ xs → (y ≤ n)%Z.
Proof.
  destruct xs as [|x xs]; [done|]. intros [= <-]. apply foldl_max_spec.
Qed.

(** *** [range] and the page URLs *)

Lemma page_urls_positions (base_url : str) (n : Z) :
  map (λ i, base_url ++ lit "/p" ++ str_of_int i) (range 1 (n + 1))
  = map (Spec.nth_page_url base_url) (seq 0 (Z.to_nat n)).
Proof.
  unfold range. rewrite <- list_fmap_compose.
  replace (n + 1 - 1)%Z with n by lia.
  apply list_fmap_ext. intros _ k _. unfold Spec.nth_page_url, compose.
  do 3 f_equal. lia.
Qed.

(** *** Running the effectful functions *)

Section Pipeline.
Context {Net : Type}.
Variable requests_get : str → list (str * str) → Net → result Response * Net.
Variable html_parser : list N → list node.
Variable todecimal : N → option N.

Abbreviation get_html := (get_html requests_get html_parser).
Abbreviation construct_page_urls :=
  (construct_page_urls requests_get html_parser todecimal).
Abbreviation search_loop := (search_loop requests_get html_parser).
Abbreviation search := (search requests_get html_parser).
Abbreviation export_prices :=
  (export_prices requests_get html_parser todecimal).
Abbreviation document_of := (document_of html_parser).

Lemma same_disk_trans (w1 w2 w3 : World Net) :
  same_disk w1 w2 → same_disk w2 w3 → same_disk w1 w3.
Proof. intros [? ?] [? ?]. split; congruence. Qed.

Lemma bind_run {A B} (m : IO Net A) (f : A → IO Net B) (w : World Net) :
  (m ≫= f) w =
  match m w with
  | (Ok a, w') => f a w'
  | (Raise e, w') => (Raise e, w')
  end.
Proof. done. Qed.

Lemma get_html_run (url : str) (w : World Net) :
  get_html url w =
  match requests_get url HEADERS (net w) with
  | (Ok resp, n) => (Ok (document_of resp), set_net w n)
  | (Raise e, n) => (Raise e, set_net w n)
  end.
Proof.
  unfold Prices.get_html, request, Run.document_of, mbind, IO_bind.
  destruct (requests_get url HEADERS (net w)) as [[resp|e] n]; [|done].
  by destruct (decide _).
Qed.

Lemma get_html_disk (url : str) (w w' : World Net) r :
  get_html url w = (r, w') → same_disk w w'.
Proof.
  rewrite get_html_run.
  destruct (requests_get url HEADERS (net w)) as [[resp|e] n];
    by intros [= _ <-].
Qed.

Lemma construct_page_urls_run (base_url : str) (w : World Net) :
  construct_page_urls base_url w =
  match requests_get base_url HEADERS (net w) with
  | (Ok resp, n) =>
    match mapM (page_number todecimal)
               (select (document_of resp) (lit "a")
                       (lit "data-pagination-page")) ≫= max with
    | Ok num_of_pages =>
      (Ok (Spec.page_urls base_url num_of_pages), set_net w n)
    | Raise e => (Raise e, set_net w n)
    end
  | (Raise e, n) => (Raise e, set_net w n)
  end.
Proof.
  unfold Prices.construct_page_urls.
  unfold mbind at 1, IO_bind. rewrite get_html_run.
  destruct (requests_get base_url HEADERS (net w)) as [[resp|e] n]; [|done].
  unfold mbind at 1, IO_bind, lift.
  destruct (mapM _ _ ≫= max) as [num|e]; [|done].
  unfold mret, IO_ret. by rewrite page_urls_positions.
Qed.

Lemma construct_page_urls_disk (base_url : str) (w w' : World Net) r :
  construct_page_urls base_url w = (r, w') → same_disk w w'.
Proof.
  rewrite construct_page_urls_run.
  destruct (requests_get base_url HEADERS (net w)) as [[resp|e] n];
    [destruct (mapM _ _ ≫= max)|]; by intros [= _ <-].
Qed.

(** The loop of [search] fetches the pages in order and appends their
    listings to what it has. *)
Lemma search_loop_run (acc : list node) (urls : list str) (w : World Net) :
  search_loop acc urls w =
  match mapM get_html urls w with
  | (Ok docs, w') => (Ok (acc ++ flat_map listings docs), w')
  | (Raise e, w') => (Raise e, w')
  end.
Proof.
  revert acc w; induction urls as [|url urls IH]; intros acc w; simpl.
  - unfold mret, IO_ret. by rewrite app_nil_r.
  - unfold mbind, IO_bind.
    destruct (get_html url w) as [[html|e] w1]; [|done].
    rewrite IH.
    destruct (mapM get_html urls w1) as [[docs|e] w2]; [|done].
    unfold mret, IO_ret. simpl. by rewrite app_assoc.
Qed.

Lemma search_run (urls : list str) (w : World Net) :
  search urls w =
  match mapM get_html urls w with
  | (Ok docs, w') => (Ok (flat_map listings docs), w')
  | (Raise e, w') => (Raise e, w')
  end.
Proof. apply search_loop_run. Qed.

Lemma fetch_all_disk (urls : list str) (w w' : World Net) r :
  mapM get_html urls w = (r, w') → same_disk w w'.
Proof.
  revert w w' r; induction urls as [|url urls IH]; intros w w' r; simpl.
  - by intros [= _ <-].
  - unfold mbind, IO_bind.
    destruct (get_html url w) as [[html|e] w1] eqn:H1;
      apply get_html_disk in H1; [|by intros [= _ <-]].
    destruct (mapM get_html urls w1) as [[docs|e] w2] eqn:H2;
      apply IH in H2; intros [= _ <-]; by eapply same_disk_trans.
Qed.

Lemma search_disk (urls : list str) (w w' : World Net) r :
  search urls w = (r, w') → same_disk w w'.
Proof.
  rewrite search_run.
  destruct (mapM get_html urls w) as [[docs|e] w1] eqn:H;
    apply fetch_all_disk in H; by intros [= _ <-].
Qed.
(** *** Writing *)

Lemma set_files_id (w : World Net) : set_files w (files w) = w.
Proof. by destruct w. Qed.

Lemma writerows_run (f : str) (rows : list (list field)) (w : World Net)
      (t : str) :
  files w !! f = Some t →
  writerows f rows w
  = let '(r, t') := written rows t in
    (r, set_files w (<[f := t']> (files w))).
Proof.
  revert w t; induction rows as [|row rows IH]; intros w t Hf; simpl.
  - unfold mret, IO_ret. rewrite insert_id by done.
    by rewrite set_files_id.
  - rewrite bind_run. unfold writerow, write.
    destruct (encodable (row_text CSV_OPTIONS row)).
    + rewrite Hf. cbn [default].
      erewrite IH by apply lookup_insert_eq.
      destruct (written rows _) as [r t'].
      unfold set_files. simpl. by rewrite insert_insert_eq.
    + rewrite insert_id by done. by rewrite set_files_id.
Qed.

(** Rows that are all written are all in the file. *)
Lemma written_Ok (rows : list (list field)) (t t' : str) :
  written rows t = (Ok (), t') → t' = t ++ rows_text CSV_OPTIONS rows.
Proof.
  revert t; induction rows as [|row rows IH]; intros t; simpl.
  - intros [= <-]. by rewrite app_nil_r.
  - destruct (encodable _); [|done]. intros ->%IH.
    unfold rows_text. by rewrite <- app_assoc.
Qed.

(** What a run of [export_prices] amounts to, stage by stage. *)
Lemma export_prices_run (base_url csv_file : str) (w : World Net) :
  export_prices base_url csv_file w =
  match construct_page_urls base_url w with
  | (Raise e, w1) => (Raise e, w1)
  | (Ok page_urls, w1) =>
    match search page_urls w1 with
    | (Raise e, w2) => (Raise e, w2)
    | (Ok houses, w2) =>
      match mapM (price_row todecimal) houses with
      | Raise e => (Raise e, w2)
      | Ok price_list =>
        match open_error w2 csv_file with
        | Some errno => (Raise (OSError errno), w2)
        | None =>
          let '(r, text) :=
            written (COLUMN_HEADERS :: map row_of_tuple price_list) [] in
          (r, set_files w2 (<[csv_file := text]> (files w2)))
        end
      end
    end
  end.
Proof.
  unfold Prices.export_prices. rewrite bind_run.
  destruct (construct_page_urls base_url w) as [[urls|e] w1]; [|done].
  rewrite bind_run.
  destruct (search urls w1) as [[houses|e] w2]; [|done].
  rewrite bind_run. unfold lift.
  destruct (mapM _ houses) as [price_list|e]; [|done].
  rewrite bind_run. unfold open_wt.
  destruct (open_error w2 csv_file); [done|].
  change (writerow csv_file COLUMN_HEADERS;;
          writerows csv_file (map row_of_tuple price_list))
    with (writerows (Net:=Net) csv_file
            (COLUMN_HEADERS :: map row_of_tuple price_list)).
  erewrite writerows_run by apply lookup_insert_eq.
  destruct (written _ _) as [r text].
  unfold set_files. simpl. by rewrite insert_insert_eq.
Qed.
End Pipeline.

End RunFacts.

(** ** Counting the rows of the output *)

Module CsvFacts.
Import Py Csv Prices Run.

(** A row as the writer emits it: every field quoted, quotes doubled. *)
Example row_text_quotes :
  row_text CSV_OPTIONS [FStr ([97; 34; 10; 98]); FInt (-5)]
  = [34; 97; 34; 34; 10; 98; 34; 44; 34; 45; 53; 34; 13; 10].
Proof. by vm_compute. Qed.

Lemma count_rows_quoted_body (s rest : str) :
  count_rows true
    (flat_map (λ c, if c =? quotechar CSV_OPTIONS then [c; c] else [c]) s
     ++ rest)
  = count_rows true rest.
Proof.
  change (quotechar CSV_OPTIONS) with 34.
  induction s as [|c s IH]; [done|].
  cbn [flat_map]. rewrite <- app_assoc.
  destruct (N.eqb_spec c 34) as [->|Hne].
  - exact IH.
  - cbn [app count_rows]. change (quotechar CSV_OPTIONS) with 34.
    apply N.eqb_neq in Hne. by rewrite Hne.
Qed.

(** A quoted field is passed without a row ending in it. *)
Lemma count_rows_quoted (s rest : str) :
  count_rows false (quoted CSV_OPTIONS s ++ rest) = count_rows false rest.
Proof.
  unfold quoted. cbn [app count_rows]. rewrite N.eqb_refl. cbn [negb].
  rewrite <- app_assoc, count_rows_quoted_body.
  cbn [app count_rows]. by rewrite N.eqb_refl.
Qed.

Lemma count_rows_fields (fs : list str) (rest : str) :
  count_rows false (join_fields CSV_OPTIONS (map (quoted CSV_OPTIONS) fs) ++ rest)
  = count_rows false rest.
Proof.
  induction fs as [|f fs IH]; [done|].
  destruct fs as [|g fs]; [apply count_rows_quoted|].
  cbn [map join_fields] in *.
  by rewrite <- app_assoc, count_rows_quoted.
Qed.

Lemma count_rows_row (row : list field) (rest : str) :
  count_rows false (row_text CSV_OPTIONS row ++ rest)
  = S (count_rows false rest).
Proof.
  unfold row_text. rewrite (list_fmap_compose field_str (quoted CSV_OPTIONS)).
  by rewrite <- app_assoc, count_rows_fields.
Qed.

(** The text of a list of rows has as many rows as the list. *)
Lemma count_rows_text (rows : list (list field)) :
  count_rows false (rows_text CSV_OPTIONS rows) = length rows.
Proof.
  induction rows as [|row rows IH]; [done|].
  unfold rows_text in *. cbn [flat_map length].
  by rewrite count_rows_row, IH.
Qed.

End CsvFacts.

(** ** The claims about the pipeline *)

Section Claims.
Import Py Soup Csv Prices Run RunFacts CsvFacts.
Context {Net : Type}.
Variable requests_get : str → list (str * str) → Net → result Response * Net.
Variable html_parser : list N → list node.
Variable todecimal : N → option N.

Abbreviation get_html := (get_html requests_get html_parser).
Abbreviation construct_page_urls :=
  (construct_page_urls requests_get html_parser todecimal).
Abbreviation search_loop := (search_loop requests_get html_parser).
Abbreviation search := (search requests_get html_parser).
Abbreviation export_prices :=
  (export_prices requests_get html_parser todecimal).
Abbreviation main := (main requests_get html_parser todecimal).
Abbreviation document_of := (document_of html_parser).

(** C3. When the seed document is fetched and the page numbers of its
    pagination links have maximum [n], [construct_page_urls] returns
    the [n] URLs base/p1, ..., base/pn in this order: the URL at
    position [i] is the one of page [i + 1].  For [n = 3] and base
    https://x/koop/y these are the three URLs of the specification. *)
Theorem construct_page_urls_pages (base_url : str) (w : World Net)
        (resp : Response) (n' : Net) (nums : list Z) (n : Z) :
  requests_get base_url HEADERS (net w) = (Ok resp, n') →
  mapM (page_number todecimal)
       (select (document_of resp) (lit "a") (lit "data-pagination-page"))
    = Ok nums →
  max nums = Ok n →
  construct_page_urls base_url w
    = (Ok (Spec.page_urls base_url n), set_net w n')
  ∧ (n ∈ nums ∧ ∀ k, k ∈ nums → (k ≤ n)%Z)
  ∧ length (Spec.page_urls base_url n) = Z.to_nat n
  ∧ (∀ i : nat, (i < Z.to_nat n)%nat →
       Spec.page_urls base_url n !! i
       = Some (base_url ++ lit "/p" ++ str_of_int (Z.of_nat i + 1)))
  ∧ Spec.page_urls (lit "https://x/koop/y") 3
    = [ lit "https://x/koop/y/p1"; lit "https://x/koop/y/p2";
        lit "https://x/koop/y/p3" ].
Proof.
  intros Hget Hnums Hmax. repeat split.
  - rewrite construct_page_urls_run, Hget, Hnums. simpl. by rewrite Hmax.
  - by apply max_spec.
  - by apply max_spec.
  - unfold Spec.page_urls. by rewrite length_map, length_seq.
  - intros i Hi. unfold Spec.page_urls.
    rewrite list_lookup_fmap, lookup_seq_lt by done.
    unfold Spec.nth_page_url. cbn -[Z.of_nat str_of_int lit].
    do 4 f_equal. lia.
Qed.

(** C4. A response with a status other than 200 makes [get_html] return
    the empty document instead of raising; no query finds anything in
    it, and [search] gets no listing from such a page. *)
Theorem get_html_fail_soft (url : str) (w : World Net)
        (resp : Response) (n' : Net) :
  requests_get url HEADERS (net w) = (Ok resp, n') →
  status_code resp ≠ 200%Z →
  get_html url w = (Ok empty_soup, set_net w n')
  ∧ descendants empty_soup = []
  ∧ (∀ name key, select empty_soup name key = [])
  ∧ (∀ name c, find_all empty_soup name c = []
               ∧ find empty_soup name c = None)
  ∧ search [url] w = (Ok [], set_net w n')
  ∧ (∀ acc urls,
       search_loop acc (url :: urls) w
       = search_loop acc urls (set_net w n')).
Proof.
  intros Hget Hstatus.
  assert (get_html url w = (Ok empty_soup, set_net w n')) as Hhtml.
  { rewrite get_html_run, Hget. unfold Run.document_of.
    by destruct (decide _). }
  repeat split; try done.
  - rewrite search_run. simpl. unfold mbind, IO_bind. by rewrite Hhtml.
  - intros acc urls. simpl. unfold mbind, IO_bind. rewrite Hhtml.
    by rewrite app_nil_r.
Qed.

(** C6. A seed document without pagination links makes
    [construct_page_urls] raise the error of [max] on an empty
    sequence; nothing catches it, so [export_prices] and [main] end
    with it. *)
Theorem construct_page_urls_no_pagination (base_url csv_file : str)
        (w : World Net) (resp : Response) (n' : Net) :
  requests_get base_url HEADERS (net w) = (Ok resp, n') →
  select (document_of resp) (lit "a") (lit "data-pagination-page") = [] →
  construct_page_urls base_url w = (Raise ValueError_max_empty, set_net w n')
  ∧ export_prices base_url csv_file w
    = (Raise ValueError_max_empty, set_net w n')
  ∧ main base_url csv_file w = (Raise ValueError_max_empty, set_net w n').
Proof.
  intros Hget Hlinks.
  assert (construct_page_urls base_url w
          = (Raise ValueError_max_empty, set_net w n')) as Hurls.
  { by rewrite construct_page_urls_run, Hget, Hlinks. }
  unfold Prices.main. by rewrite export_prices_run, Hurls.
Qed.

(** A listing whose address or price cannot be parsed has no row. *)
Lemma price_row_raise (house_html : node) (e : exception) :
  parse_address house_html = Raise e
  ∨ parse_price todecimal house_html = Raise e →
  ∃ e', price_row todecimal house_html = Raise e'.
Proof.
  unfold price_row. intros [->| ->]; [by eexists|].
  destruct (parse_address house_html); by eexists.
Qed.

(** C2. When the pages have been resolved and fetched and the address
    or the price of some listing cannot be parsed, [export_prices]
    raises and the file system is what it was before the run: the file
    is opened only after every row has been computed. *)
Theorem export_prices_parse_failure (base_url csv_file : str)
        (w w1 w2 : World Net) (page_urls : list str)
        (houses : list node) (house_html : node) (e : exception) :
  construct_page_urls base_url w = (Ok page_urls, w1) →
  search page_urls w1 = (Ok houses, w2) →
  house_html ∈ houses →
  parse_address house_html = Raise e
  ∨ parse_price todecimal house_html = Raise e →
  ∃ e', export_prices base_url csv_file w = (Raise e', w2)
        ∧ files w2 = files w
        ∧ files w2 !! csv_file = files w !! csv_file.
Proof.
  intros Hurls Hsearch Hin Hparse.
  destruct (price_row_raise _ _ Hparse) as [e1 Hrow].
  destruct (mapM_Raise _ _ _ _ Hin Hrow) as [e' Hrows].
  exists e'.
  assert (export_prices base_url csv_file w = (Raise e', w2)) as Hrun.
  { by rewrite export_prices_run, Hurls, Hsearch, Hrows. }
  split; [done|].
  apply construct_page_urls_disk in Hurls as [Hfiles1 _].
  apply search_disk in Hsearch as [Hfiles2 _].
  by rewrite Hfiles2, Hfiles1.
Qed.

(** C5. After a successful run the output file holds the header row
    with the fields "Address" and "Price (euro)", followed by one row
    per listing, and nothing else: the pages base/p1, ..., base/pn were
    fetched in this order, the listings of each were taken in document
    order, and the rows are theirs, so there is one row more than there
    are listings, in the list of rows written and in the text of the
    file. *)
Theorem export_prices_rows (base_url csv_file : str) (w w' : World Net) :
  export_prices base_url csv_file w = (Ok (), w') →
  ∃ (n : Z) (w1 w2 : World Net) (docs : list node)
    (price_list : list (str * Z)),
    construct_page_urls base_url w = (Ok (Spec.page_urls base_url n), w1)
    ∧ mapM get_html (Spec.page_urls base_url n) w1 = (Ok docs, w2)
    ∧ Forall2 (λ house_html row, price_row todecimal house_html = Ok row)
              (flat_map listings docs) price_list
    ∧ files w'
      = <[csv_file :=
            rows_text CSV_OPTIONS
              ([FStr (lit "Address"); FStr (lit "Price (euro)")]
               :: map row_of_tuple price_list)]> (files w)
    ∧ rows_text CSV_OPTIONS
        ([FStr (lit "Address"); FStr (lit "Price (euro)")]
         :: map row_of_tuple price_list)
      = ([34] ++ lit "Address" ++ [34; 44; 34] ++ lit "Price (euro)"
         ++ [34; 13; 10])
        ++ rows_text CSV_OPTIONS (map row_of_tuple price_list)
    ∧ length ([FStr (lit "Address"); FStr (lit "Price (euro)")]
              :: map row_of_tuple price_list)
      = S (length (flat_map listings docs))
    ∧ ∃ text, files w' !! csv_file = Some text
              ∧ count_rows false text
                = S (length (flat_map listings docs)).
Proof.
  rewrite export_prices_run, construct_page_urls_run.
  destruct (requests_get base_url HEADERS (net w)) as [[resp|e] n0];
    [|done].
  destruct (mapM _ _ ≫= max) as [n|e]; [|done].
  rewrite search_run.
  destruct (mapM get_html _ (set_net w n0)) as [[docs|e] w2] eqn:Hdocs;
    [|done].
  destruct (mapM _ (flat_map listings docs)) as [price_list|e] eqn:Hrows;
    [|done].
  destruct (open_error w2 csv_file); [done|].
  destruct (written _ _) as [r text] eqn:Hwritten.
  intros [= -> <-]. apply written_Ok in Hwritten as ->.
  exists n, (set_net w n0), w2, docs, price_list.
  pose proof Hdocs as Hdisk.
  apply fetch_all_disk in Hdisk as [Hfiles _].
  apply mapM_Ok_Forall2 in Hrows.
  assert (length (COLUMN_HEADERS :: map row_of_tuple price_list)
          = S (length (flat_map listings docs))) as Hlen.
  { simpl. rewrite length_map. f_equal. symmetry.
    by eapply Forall2_length. }
  do 3 (split; [done|]).
  split; [cbn [files set_files app]; by rewrite Hfiles|].
  split; [done|]. split; [done|].
  exists (rows_text CSV_OPTIONS
            (COLUMN_HEADERS :: map row_of_tuple price_list)).
  split; [cbn [files set_files app]; apply lookup_insert_eq|].
  by rewrite count_rows_text.
Qed.

(** Pages that are not served are fetched as empty documents. *)
Lemma not_served_fetch (urls : list str) (w : World Net) :
  not_served requests_get urls (net w) →
  ∃ w', mapM get_html urls w
        = (Ok (replicate (length urls) empty_soup), w')
        ∧ same_disk w w'.
Proof.
  revert w; induction urls as [|url urls IH]; intros w; simpl.
  - intros _. by exists w.
  - intros (resp & n' & Hget & Hstatus & Hrest).
    destruct (IH (set_net w n') Hrest) as (w' & Hfetch & Hdisk).
    exists w'. split; [|done].
    rewrite bind_run, get_html_run, Hget. unfold Run.document_of.
    destruct (decide _); [done|]. by rewrite bind_run, Hfetch.
Qed.

Lemma listings_empty (k : nat) :
  flat_map listings (replicate k empty_soup) = [].
Proof. by induction k. Qed.

(** C9. When the pages are resolved, every page request is answered
    with a status other than 200 and the output file can be opened,
    [export_prices] completes, and the output file holds the header
    row and nothing else. *)
Theorem export_prices_no_listings (base_url csv_file : str)
        (w w1 : World Net) (page_urls : list str) :
  construct_page_urls base_url w = (Ok page_urls, w1) →
  not_served requests_get page_urls (net w1) →
  open_error w csv_file = None →
  ∃ w', export_prices base_url csv_file w = (Ok (), w')
        ∧ files w' = <[csv_file := row_text CSV_OPTIONS COLUMN_HEADERS]>
                       (files w)
        ∧ row_text CSV_OPTIONS COLUMN_HEADERS
          = [34] ++ lit "Address" ++ [34; 44; 34] ++ lit "Price (euro)"
            ++ [34; 13; 10].
Proof.
  intros Hurls Hdown Hopen.
  destruct (not_served_fetch _ _ Hdown) as (w2 & Hfetch & Hfiles2 & Hopen2).
  pose proof Hurls as Hdisk1.
  apply construct_page_urls_disk in Hdisk1 as [Hfiles1 Hopen1].
  eexists. split; [|split; [|done]].
  - rewrite export_prices_run, Hurls, search_run, Hfetch, listings_empty.
    simpl. rewrite Hopen2, Hopen1, Hopen. reflexivity.
  - simpl. by rewrite Hfiles2, Hfiles1.
Qed.
End Claims.

(** ** The claims on the small site *)

Module Witness.
Import Py Soup Csv Prices Run Fixture.

(** Pagination up to page 3 gives the three URLs of the specification. *)
Lemma construct_page_urls_pages_witness :
  construct_page_urls (requests_get site3) (html_parser trees) no_decimals
                      base_url world0
  = (Ok [ lit "https://x/koop/y/p1"; lit "https://x/koop/y/p2";
          lit "https://x/koop/y/p3" ],
     set_net world0 [base_url]).
Proof.
  apply (construct_page_urls_pages (requests_get site3) (html_parser trees)
           no_decimals base_url world0 (ok "seed3") [base_url]
           [1; 3; 2]%Z 3%Z);
    vm_compute; reflexivity.
Defined.

(** A page the site does not have is answered with 404. *)
Lemma get_html_fail_soft_witness :
  get_html (requests_get site) (html_parser trees)
           (base_url ++ lit "/p9") world0
  = (Ok empty_soup, set_net world0 [base_url ++ lit "/p9"]).
Proof.
  apply (get_html_fail_soft (requests_get site) (html_parser trees)
           (base_url ++ lit "/p9") world0 not_found
           [base_url ++ lit "/p9"]);
    vm_compute; [reflexivity|discriminate].
Defined.

Lemma construct_page_urls_no_pagination_witness :
  export_prices (requests_get site_bare) (html_parser trees) no_decimals
                base_url csv_file world0
  = (Raise ValueError_max_empty, set_net world0 [base_url]).
Proof.
  apply (construct_page_urls_no_pagination (requests_get site_bare)
           (html_parser trees) no_decimals base_url csv_file world0
           (ok "bare") [base_url]);
    vm_compute; reflexivity.
Defined.

Lemma export_prices_parse_failure_witness :
  ∃ e', export_prices (requests_get site_bad) (html_parser trees) no_decimals
                      base_url csv_file world0
        = (Raise e', world_fetched)
        ∧ files world_fetched = files world0
        ∧ files world_fetched !! csv_file = files world0 !! csv_file.
Proof.
  apply (export_prices_parse_failure (requests_get site_bad)
           (html_parser trees) no_decimals base_url csv_file world0
           (set_net world0 [base_url]) world_fetched
           [base_url ++ lit "/p1"; base_url ++ lit "/p2"]
           [house1; house2; house_bad; house3] house_bad
           (ValueError_invalid_literal (lit "400000 - 450000"))).
  - vm_compute. reflexivity.
  - vm_compute. reflexivity.
  - do 2 right. left.
  - right. vm_compute. reflexivity.
Defined.

Lemma export_prices_rows_witness :
  ∃ (n : Z) (w1 w2 : World Net) (docs : list node)
    (price_list : list (str * Z)),
    construct_page_urls (requests_get site) (html_parser trees) no_decimals
                        base_url world0
    = (Ok (Spec.page_urls base_url n), w1)
    ∧ mapM (get_html (requests_get site) (html_parser trees))
           (Spec.page_urls base_url n) w1 = (Ok docs, w2)
    ∧ Forall2 (λ house_html row, price_row no_decimals house_html = Ok row)
              (flat_map listings docs) price_list
    ∧ files (set_files world_fetched
               (<[csv_file :=
                    rows_text CSV_OPTIONS
                      [ [FStr (lit "Address"); FStr (lit "Price (euro)")];
                        [FStr (lit "Main St 1"); FInt 350000];
                        [FStr (lit "Side Rd 2a"); FInt 1250000];
                        [FStr (lit "Quay 3"); FInt 0] ]]> (files world0)))
      = <[csv_file :=
            rows_text CSV_OPTIONS
              ([FStr (lit "Address"); FStr (lit "Price (euro)")]
               :: map row_of_tuple price_list)]> (files world0)
    ∧ rows_text CSV_OPTIONS
        ([FStr (lit "Address"); FStr (lit "Price (euro)")]
         :: map row_of_tuple price_list)
      = ([34] ++ lit "Address" ++ [34; 44; 34] ++ lit "Price (euro)"
         ++ [34; 13; 10])
        ++ rows_text CSV_OPTIONS (map row_of_tuple price_list)
    ∧ length ([FStr (lit "Address"); FStr (lit "Price (euro)")]
              :: map row_of_tuple price_list)
      = S (length (flat_map listings docs))
    ∧ ∃ text,
        files (set_files world_fetched
                 (<[csv_file :=
                      rows_text CSV_OPTIONS
                        [ [FStr (lit "Address"); FStr (lit "Price (euro)")];
                          [FStr (lit "Main St 1"); FInt 350000];
                          [FStr (lit "Side Rd 2a"); FInt 1250000];
                          [FStr (lit "Quay 3"); FInt 0] ]]> (files world0)))
          !! csv_file = Some text
        ∧ count_rows false text = S (length (flat_map listings docs)).
Proof.
  apply (export_prices_rows (requests_get site) (html_parser trees)
           no_decimals base_url csv_file world0).
  vm_compute. reflexivity.
Defined.

Lemma export_prices_no_listings_witness :
  ∃ w', export_prices (requests_get site_down) (html_parser trees)
                      no_decimals base_url csv_file world0 = (Ok (), w')
        ∧ files w' = <[csv_file := row_text CSV_OPTIONS COLUMN_HEADERS]>
                       (files world0)
        ∧ row_text CSV_OPTIONS COLUMN_HEADERS
          = [34] ++ lit "Address" ++ [34; 44; 34] ++ lit "Price (euro)"
            ++ [34; 13; 10].
Proof.
  apply (export_prices_no_listings (requests_get site_down)
           (html_parser trees) no_decimals base_url csv_file world0
           (set_net world0 [base_url])
           [base_url ++ lit "/p1"; base_url ++ lit "/p2"]).
  - vm_compute. reflexivity.
  - simpl. eexists not_found, _. split; [vm_compute; reflexivity|].
    split; [discriminate|].
    eexists not_found, _. split; [vm_compute; reflexivity|].
    split; [discriminate|done].
  - reflexivity.
Defined.

Lemma clean_price_nonnegative_witness :
  (0 ≤ 350000)%Z
  ∧ clean_price no_decimals (lit "Price on request")
    = Ok 0%Z.
Proof.
  apply (clean_price_nonnegative no_decimals
           (lit "€ 350.000 k.k.") 350000%Z).
  - vm_compute. reflexivity.
  - vm_compute. discriminate.
Defined.

End Witness.

(** ** More about the built-ins *)

Module PyFacts2.
Import Py PyFacts Trace.

(** [replace] leaves a string alone in which the first character of the
    pattern does not occur. *)
Lemma replace_absent (s old' new : str) (c : N) :
  c ∉ s → replace s (c :: old') new = s.
Proof.
  unfold replace. induction s as [|x s IH]; [done|].
  intros Hc. apply not_elem_of_cons in Hc as [Hx Hs].
  cbn [replace_from startswith].
  apply not_eq_sym, N.eqb_neq in Hx. rewrite Hx. cbn.
  by rewrite IH.
Qed.

Lemma lstrip_spaces (s : str) :
  Forall (λ c, Py_UNICODE_ISSPACE c = true) s → lstrip s = [].
Proof. induction 1 as [|c s Hc _ IH]; simpl; [done|by rewrite Hc]. Qed.

Lemma strip_spaces (s : str) :
  Forall (λ c, Py_UNICODE_ISSPACE c = true) s → strip s = [].
Proof. intros H. unfold strip. by rewrite lstrip_spaces. Qed.

(** *** Printing and reading back a number *)

Lemma string_of_uint_digits (d : Decimal.uint) :
  bytes_of_string (NilEmpty.string_of_uint d)
  = map (λ v, 48 + v) (uint_digits d).
Proof. induction d; simpl; [done|by rewrite IHd..]. Qed.

Lemma uint_digits_lt (d : Decimal.uint) : Forall (λ v, v < 10) (uint_digits d).
Proof. induction d; simpl; constructor; done || lia. Qed.

(** Reading digits most significant first is Horner's scheme. *)
Lemma scan_digits_digits (ds : list N) (acc : Z) (n : nat) :
  Forall (λ v, v < 10) ds →
  scan_digits false acc n (map (λ v, 48 + v) ds)
  = Some (foldl (λ a v, 10 * a + Z.of_N v)%Z acc ds, (n + length ds)%nat, []).
Proof.
  intros Hds. revert acc n.
  induction Hds as [|v ds Hv _ IH]; intros acc n; simpl.
  - by rewrite Nat.add_0_r.
  - assert (is_digit (48 + v) = true) as ->.
    { unfold is_digit. apply andb_true_intro.
      split; apply N.leb_le; lia. }
    rewrite IH. do 3 f_equal; [|lia].
    f_equal. lia.
Qed.

Lemma horner_of_lu (d d' : Decimal.uint) :
  foldl (λ a v, 10 * a + Z.of_N v)%Z
        (Z.of_N (DecimalPos.Unsigned.of_lu d')) (uint_digits d)
  = Z.of_N (DecimalPos.Unsigned.of_lu (Decimal.revapp d d')).
Proof.
  revert d'; induction d; intros d'; simpl; [done|..];
    rewrite <- IHd; f_equal; simpl DecimalPos.Unsigned.of_lu; lia.
Qed.

Lemma horner_to_uint (p : positive) :
  foldl (λ a v, 10 * a + Z.of_N v)%Z 0%Z (uint_digits (Pos.to_uint p))
  = Z.pos p.
Proof.
  change 0%Z with (Z.of_N (DecimalPos.Unsigned.of_lu Decimal.Nil)).
  rewrite horner_of_lu.
  change (Decimal.revapp (Pos.to_uint p) Decimal.Nil)
    with (Decimal.rev (Pos.to_uint p)).
  by rewrite <- DecimalPos.Unsigned.of_uint_alt, DecimalPos.Unsigned.of_to.
Qed.

Lemma to_ascii_id (todecimal : N → option N) (s : str) :
  Forall (λ c, c < 127) s → map (to_ascii todecimal) s = s.
Proof.
  induction 1 as [|c s Hc _ IH]; simpl; [done|].
  rewrite IH. unfold to_ascii. apply N.ltb_lt in Hc. by rewrite Hc.
Qed.

(** The text of a numeral: at least one digit, no sign. *)
Lemma PyLong_FromString_digits (ds : list N) (sign : str) (z : Z) :
  ds ≠ [] → Forall (λ v, v < 10) ds →
  (length ds ≤ int_max_str_digits)%nat →
  (sign = [] ∧ z = 1%Z) ∨ (sign = [45] ∧ z = (-1)%Z) →
  PyLong_FromString (sign ++ map (λ v, 48 + v) ds)
  = Some (Ok (z * foldl (λ a v, 10 * a + Z.of_N v)%Z 0%Z ds)%Z).
Proof.
  intros Hne Hds Hlen Hsign. unfold PyLong_FromString.
  destruct ds as [|v ds]; [done|].
  pose proof (Forall_inv Hds) as Hv. cbn beta in Hv.
  assert (read_sign (skip_space (sign ++ map (λ v, 48 + v) (v :: ds)))
          = (z, map (λ v, 48 + v) (v :: ds))) as ->.
  { destruct Hsign as [[-> ->]|[-> ->]]; cbn [app map skip_space].
    - rewrite Py_ISSPACE_ge_48 by lia. unfold read_sign.
      destruct (N.eqb_spec (48 + v) 43); [lia|].
      destruct (N.eqb_spec (48 + v) 45); [lia|done].
    - done. }
  assert (startswith (map (λ v, 48 + v) (v :: ds)) [95] = false) as ->.
  { cbn. destruct (N.eqb_spec (48 + v) 95); [lia|done]. }
  rewrite scan_digits_digits by done.
  destruct (decide _); [lia|]. done.
Qed.

Lemma str_of_int_pos (p : positive) :
  str_of_int (Z.pos p) = map (λ v, 48 + v) (uint_digits (Pos.to_uint p)).
Proof.
  unfold str_of_int. cbn [Z.to_int NilZero.string_of_int].
  rewrite <- string_of_uint_digits. unfold NilZero.string_of_uint.
  pose proof (DecimalPos.Unsigned.to_uint_nonnil p).
  by destruct (Pos.to_uint p).
Qed.

Lemma str_of_int_neg (p : positive) :
  str_of_int (Z.neg p) = 45 :: str_of_int (Z.pos p).
Proof. done. Qed.

Lemma uint_digits_nonnil (p : positive) : uint_digits (Pos.to_uint p) ≠ [].
Proof.
  pose proof (DecimalPos.Unsigned.to_uint_nonnil p).
  by destruct (Pos.to_uint p).
Qed.

(** The characters of a printed number: digits, and a minus sign. *)
Lemma str_of_int_chars (z : Z) :
  Forall (λ c, c = 45 ∨ 48 ≤ c ≤ 57) (str_of_int z).
Proof.
  assert (∀ p, Forall (λ c, c = 45 ∨ 48 ≤ c ≤ 57) (str_of_int (Z.pos p)))
    as Hpos.
  { intros p. rewrite str_of_int_pos. apply Forall_fmap.
    eapply Forall_impl; [apply uint_digits_lt|]. simpl. lia. }
  destruct z as [|p|p].
  - change (str_of_int 0) with [48]. constructor; [right; lia|constructor].
  - apply Hpos.
  - rewrite str_of_int_neg. constructor; [by left|apply Hpos].
Qed.

(** [int(str(z))] is [z], as long as [z] has no more digits than [int]
    accepts. *)
Lemma int_str_of_int (todecimal : N → option N) (z : Z) :
  (length (str_of_int (Z.abs z)) ≤ int_max_str_digits)%nat →
  int todecimal (str_of_int z) = Ok z.
Proof.
  intros Hlen. unfold int.
  rewrite to_ascii_id
    by (eapply Forall_impl; [apply str_of_int_chars|]; simpl; lia).
  destruct z as [|p|p]; [done|..].
  - change (Z.abs (Z.pos p)) with (Z.pos p) in Hlen.
    rewrite str_of_int_pos in *. rewrite length_map in Hlen.
    pose proof (PyLong_FromString_digits (uint_digits (Pos.to_uint p)) [] 1
                  (uint_digits_nonnil p) (uint_digits_lt _) Hlen
                  (or_introl (conj eq_refl eq_refl))) as Hparse.
    cbn [app] in Hparse. rewrite Hparse.
    by rewrite horner_to_uint, Z.mul_1_l.
  - change (Z.abs (Z.neg p)) with (Z.pos p) in Hlen.
    rewrite str_of_int_neg. rewrite str_of_int_pos in *.
    rewrite length_map in Hlen.
    pose proof (PyLong_FromString_digits (uint_digits (Pos.to_uint p)) [45]
                  (-1) (uint_digits_nonnil p) (uint_digits_lt _) Hlen
                  (or_intror (conj eq_refl eq_refl))) as Hparse.
    cbn [app] in Hparse. rewrite Hparse.
    by rewrite horner_to_uint.
Qed.

Lemma str_of_int_inj (a b : Z) : str_of_int a = str_of_int b → a = b.
Proof.
  unfold str_of_int. intros H. apply DecimalZ.to_int_inj.
  assert (∀ s1 s2, bytes_of_string s1 = bytes_of_string s2 → s1 = s2)
    as Hbytes.
  { induction s1 as [|c1 s1 IH]; intros [|c2 s2]; simpl; try done.
    intros [= Hc Hs]. f_equal; [|by apply IH].
    rewrite <- (ascii_N_embedding c1), <- (ascii_N_embedding c2).
    by rewrite Hc. }
  apply Hbytes in H.
  assert (∀ z, Z.to_int z ≠ Decimal.Pos Decimal.Nil
               ∧ Z.to_int z ≠ Decimal.Neg Decimal.Nil) as Hnil.
  { intros [|p|p]; simpl; split; try done;
      intros [= Hp]; by apply DecimalPos.Unsigned.to_uint_nonnil in Hp. }
  destruct (Hnil a), (Hnil b).
  assert (Some (Z.to_int a) = Some (Z.to_int b)) as [= ->]; [|done].
  rewrite <- (NilZero.isi (Z.to_int a)), <- (NilZero.isi (Z.to_int b)) by done.
  by rewrite H.
Qed.

End PyFacts2.

(** ** More about the pipeline *)

Section More.
Import Py Soup Csv Prices Run RunFacts CsvFacts PyFacts PyFacts2 Trace.
Context {Net : Type}.
Variable requests_get : str → list (str * str) → Net → result Response * Net.
Variable html_parser : list N → list node.
Variable todecimal : N → option N.

Abbreviation get_html := (get_html requests_get html_parser).
Abbreviation construct_page_urls :=
  (construct_page_urls requests_get html_parser todecimal).
Abbreviation search_loop := (search_loop requests_get html_parser).
Abbreviation search := (search requests_get html_parser).
Abbreviation export_prices :=
  (export_prices requests_get html_parser todecimal).
Abbreviation document_of := (document_of html_parser).
Abbreviation page_links resp :=
  (select (document_of resp) (lit "a") (lit "data-pagination-page")).

(** An exception raised inside [requests.get] is not caught: [get_html]
    raises it, [search] gives up the listings it has collected, and a run
    whose first request fails ends with it. *)
Theorem request_failure_propagates (url csv_file : str) (w : World Net)
        (e : exception) (n' : Net) :
  requests_get url HEADERS (net w) = (Raise e, n') →
  get_html url w = (Raise e, set_net w n')
  ∧ (∀ acc urls, search_loop acc (url :: urls) w = (Raise e, set_net w n'))
  ∧ export_prices url csv_file w = (Raise e, set_net w n').
Proof.
  intros Hget.
  assert (get_html url w = (Raise e, set_net w n')) as Hhtml.
  { by rewrite get_html_run, Hget. }
  split; [done|]. split.
  - intros acc urls. simpl. by rewrite bind_run, Hhtml.
  - by rewrite export_prices_run, construct_page_urls_run, Hget.
Qed.

(** The stages behind a run that returns. *)
Lemma export_prices_Ok_inv (base_url csv_file : str) (w w' : World Net) :
  export_prices base_url csv_file w = (Ok (), w') →
  ∃ urls w1 houses w2 price_list,
    construct_page_urls base_url w = (Ok urls, w1)
    ∧ search urls w1 = (Ok houses, w2)
    ∧ mapM (price_row todecimal) houses = Ok price_list
    ∧ open_error w2 csv_file = None
    ∧ same_disk w w2
    ∧ w' = set_files w2
             (<[csv_file :=
                  rows_text CSV_OPTIONS
                    (COLUMN_HEADERS :: map row_of_tuple price_list)]>
                (files w2))
    ∧ written (COLUMN_HEADERS :: map row_of_tuple price_list) []
      = (Ok (),
         rows_text CSV_OPTIONS
           (COLUMN_HEADERS :: map row_of_tuple price_list)).
Proof.
  rewrite export_prices_run.
  destruct (construct_page_urls base_url w) as [[urls|e] w1] eqn:H1; [|done].
  destruct (search urls w1) as [[houses|e] w2] eqn:H2; [|done].
  destruct (mapM _ houses) as [price_list|e] eqn:H3; [|done].
  destruct (open_error w2 csv_file) eqn:H4; [done|].
  destruct (written _ _) as [r text] eqn:H5.
  intros [= -> <-]. pose proof H5 as ->%written_Ok.
  exists urls, w1, houses, w2, price_list.
  repeat split; try done;
    apply construct_page_urls_disk in H1 as [? ?];
    apply search_disk in H2 as [? ?]; congruence.
Qed.

(** Whatever the outcome, [export_prices] changes no file but the output
    file. *)
Theorem export_prices_frame (base_url csv_file : str) (w w' : World Net)
        (r : result ()) :
  export_prices base_url csv_file w = (r, w') →
  (∀ path, path ≠ csv_file → files w' !! path = files w !! path)
  ∧ open_error w' = open_error w.
Proof.
  rewrite export_prices_run.
  destruct (construct_page_urls base_url w) as [[urls|e1] w1] eqn:H1;
    apply construct_page_urls_disk in H1 as [Hf1 Ho1];
    [|intros [= _ <-]; by rewrite Hf1].
  destruct (search urls w1) as [[houses|e2] w2] eqn:H2;
    apply search_disk in H2 as [Hf2 Ho2];
    [|intros [= _ <-]; by rewrite Hf2, Hf1, Ho2].
  destruct (mapM _ houses);
    [|intros [= _ <-]; by rewrite Hf2, Hf1, Ho2].
  destruct (open_error w2 csv_file);
    [intros [= _ <-]; by rewrite Hf2, Hf1, Ho2|].
  destruct (written _ _) as [r' text]. intros [= _ <-].
  cbn [files open_error set_files]. split; [|by rewrite Ho2].
  intros path Hpath. by rewrite lookup_insert_ne, Hf2, Hf1.
Qed.

(** *** Rows that cannot be encoded *)

Lemma encodable_app (s1 s2 : str) :
  encodable (s1 ++ s2) = encodable s1 && encodable s2.
Proof. apply forallb_app. Qed.

Lemma encodable_quoted (s : str) :
  encodable (quoted CSV_OPTIONS s) = encodable s.
Proof.
  unfold quoted. change (quotechar CSV_OPTIONS) with 34.
  change (encodable (34 :: ?l)) with (encodable l).
  rewrite encodable_app, andb_true_r.
  induction s as [|c s IH]; [done|]. cbn [flat_map].
  rewrite encodable_app, IH.
  destruct (N.eqb_spec c 34) as [->|_]; [done|].
  unfold encodable. cbn [forallb]. by rewrite andb_true_r.
Qed.

Lemma encodable_str_of_int (z : Z) : encodable (str_of_int z) = true.
Proof.
  apply forallb_forall. intros c Hc%list_elem_of_In.
  pose proof (str_of_int_chars z) as Hchars.
  rewrite Forall_forall in Hchars. apply Hchars in Hc.
  apply negb_true_iff, andb_false_intro1, N.leb_gt. lia.
Qed.

(** A row of the price list can be encoded when its address can. *)
Lemma row_encodable (t : str * Z) :
  encodable (row_text CSV_OPTIONS (row_of_tuple t)) = encodable t.1.
Proof.
  unfold row_text, row_of_tuple. cbn [map join_fields field_str].
  rewrite !encodable_app. cbn [encodable forallb].
  rewrite !encodable_quoted, encodable_str_of_int.
  by rewrite !andb_true_r.
Qed.

(** A row that cannot be encoded ends the run in the write stage: the
    file has been truncated by then, and it is left holding the header
    row and the rows written before the offending one. *)
Theorem export_prices_write_failure (base_url csv_file : str)
        (w w1 w2 : World Net) (urls : list str) (houses : list node)
        (good rest : list (str * Z)) (bad : str * Z) :
  construct_page_urls base_url w = (Ok urls, w1) →
  search urls w1 = (Ok houses, w2) →
  mapM (price_row todecimal) houses = Ok (good ++ bad :: rest) →
  open_error w csv_file = None →
  Forall (λ t, encodable t.1 = true) good →
  encodable bad.1 = false →
  export_prices base_url csv_file w
  = (Raise UnicodeEncodeError,
     set_files w2
       (<[csv_file :=
            rows_text CSV_OPTIONS
              ([FStr (lit "Address"); FStr (lit "Price (euro)")]
               :: map row_of_tuple good)]>
          (files w))).
Proof.
  intros H1 H2 H3 Hopen Hgood Hbad.
  pose proof H1 as [Hf1 Ho1]%construct_page_urls_disk.
  pose proof H2 as [Hf2 Ho2]%search_disk.
  rewrite export_prices_run, H1, H2, H3, Ho2, Ho1, Hopen.
  rewrite Hf2, Hf1.
  assert (∀ t, written (map row_of_tuple (good ++ bad :: rest)) t
               = (Raise UnicodeEncodeError,
                  t ++ rows_text CSV_OPTIONS (map row_of_tuple good)))
    as Hwritten.
  { clear -Hgood Hbad. induction Hgood as [|g good Hg _ IH]; intros t.
    - cbn [app map written]. rewrite row_encodable, Hbad.
      unfold rows_text. simpl. by rewrite app_nil_r.
    - cbn [app map written]. rewrite row_encodable, Hg, IH.
      unfold rows_text. simpl. by rewrite <- app_assoc. }
  cbn [written]. change (encodable (row_text CSV_OPTIONS COLUMN_HEADERS))
    with true. cbn iota. by rewrite Hwritten.
Qed.

(** [open] raising ends the run with its error: the rows computed are
    dropped and no file is changed. *)
Theorem export_prices_open_failure (base_url csv_file : str)
        (w w1 w2 : World Net) (urls : list str) (houses : list node)
        (price_list : list (str * Z)) (errno : N) :
  construct_page_urls base_url w = (Ok urls, w1) →
  search urls w1 = (Ok houses, w2) →
  mapM (price_row todecimal) houses = Ok price_list →
  open_error w csv_file = Some errno →
  export_prices base_url csv_file w = (Raise (OSError errno), w2)
  ∧ files w2 = files w.
Proof.
  intros H1 H2 H3 Hopen.
  pose proof H1 as [Hf1 Ho1]%construct_page_urls_disk.
  pose proof H2 as [Hf2 Ho2]%search_disk.
  split; [|congruence].
  rewrite export_prices_run, H1, H2, H3.
  by rewrite Ho2, Ho1, Hopen.
Qed.

(** *** The network stages do not look at the disk *)

Lemma get_html_set_files (url : str) (w : World Net) (fs : gmap str str) :
  get_html url (set_files w fs)
  = let '(r, w') := get_html url w in (r, set_files w' fs).
Proof.
  rewrite !get_html_run. cbn [net set_files].
  by destruct (requests_get url HEADERS (net w)) as [[resp|e] n].
Qed.

Lemma fetch_all_set_files (urls : list str) (w : World Net)
      (fs : gmap str str) :
  mapM get_html urls (set_files w fs)
  = let '(r, w') := mapM get_html urls w in (r, set_files w' fs).
Proof.
  revert w; induction urls as [|url urls IH]; intros w; [done|].
  cbn [mapM]. rewrite !bind_run, get_html_set_files.
  destruct (get_html url w) as [[html|e] w1]; [|done].
  rewrite !bind_run, IH.
  by destruct (mapM get_html urls w1) as [[docs|e] w2].
Qed.

Lemma search_set_files (urls : list str) (w : World Net) (fs : gmap str str) :
  search urls (set_files w fs)
  = let '(r, w') := search urls w in (r, set_files w' fs).
Proof.
  rewrite !search_run, fetch_all_set_files.
  by destruct (mapM get_html urls w) as [[docs|e] w1].
Qed.

Lemma construct_page_urls_set_files (base_url : str) (w : World Net)
      (fs : gmap str str) :
  construct_page_urls base_url (set_files w fs)
  = let '(r, w') := construct_page_urls base_url w in (r, set_files w' fs).
Proof.
  rewrite !construct_page_urls_run. cbn [net set_files].
  destruct (requests_get base_url HEADERS (net w)) as [[resp|e] n]; [|done].
  by destruct (mapM _ _ ≫= max).
Qed.

(** The output file is written afresh: a run that returns ends in the
    same world whatever the file held before, so nothing of an earlier
    price list survives. *)
Theorem export_prices_overwrites (base_url csv_file : str) (w w' : World Net)
        (old : str) :
  export_prices base_url csv_file w = (Ok (), w') →
  export_prices base_url csv_file
    (set_files w (<[csv_file := old]> (files w))) = (Ok (), w').
Proof.
  intros Hrun. apply export_prices_Ok_inv in Hrun
    as (urls & w1 & houses & w2 & rows & H1 & H2 & H3 & H4 & [Hf Ho] & ->
        & H5).
  rewrite export_prices_run, construct_page_urls_set_files, H1.
  rewrite search_set_files, H2, H3. cbn [open_error set_files files].
  rewrite H4, H5. unfold set_files. cbn [files net open_error].
  by rewrite insert_insert_eq, Hf.
Qed.

(** *** [search] over a list of pages *)

Lemma fetch_all_app (us vs : list str) (w : World Net) :
  mapM get_html (us ++ vs) w
  = match mapM get_html us w with
    | (Ok a, w1) =>
      match mapM get_html vs w1 with
      | (Ok b, w2) => (Ok (a ++ b), w2)
      | (Raise e, w2) => (Raise e, w2)
      end
    | (Raise e, w1) => (Raise e, w1)
    end.
Proof.
  revert w; induction us as [|url us IH]; intros w.
  - cbn [app mapM]. unfold mret, IO_ret.
    by destruct (mapM get_html vs w) as [[b|e] w2].
  - cbn [app mapM]. rewrite !bind_run.
    destruct (get_html url w) as [[html|e] w0]; [|done].
    rewrite !bind_run, IH.
    destruct (mapM get_html us w0) as [[a|e] w1]; [|done].
    unfold mret, IO_ret.
    by destruct (mapM get_html vs w1) as [[b|e] w2].
Qed.

(** Searching a list of pages is searching its front part and then its
    rear part, in the world the front part left; an error in either part
    is the error of the whole. *)
Theorem search_app (us vs : list str) (w : World Net) :
  search (us ++ vs) w
  = match search us w with
    | (Ok a, w1) =>
      match search vs w1 with
      | (Ok b, w2) => (Ok (a ++ b), w2)
      | (Raise e, w2) => (Raise e, w2)
      end
    | (Raise e, w1) => (Raise e, w1)
    end.
Proof.
  rewrite !search_run, fetch_all_app.
  destruct (mapM get_html us w) as [[a|e] w1]; [|done].
  rewrite search_run.
  destruct (mapM get_html vs w1) as [[b|e] w2]; [|done].
  by rewrite flat_map_app.
Qed.

Lemma listings_are_results (html : node) :
  Forall (λ h, ∃ attrs contents,
            h = Tag (lit "li") attrs contents
            ∧ class_matches (lit "search-result") attrs = true)
         (listings html).
Proof.
  unfold listings, find_all. apply Forall_forall. intros h Hh.
  apply list_elem_of_filter in Hh as [Hh _].
  destruct h as [| |name attrs contents]; simpl in Hh; try done.
  apply andb_prop in Hh as [Hname Hclass].
  apply bool_decide_eq_true in Hname as ->. by exists attrs, contents.
Qed.

(** Everything [search] returns is an [li] element of class
    [search-result]. *)
Theorem search_only_results (urls : list str) (w w' : World Net)
        (houses : list node) :
  search urls w = (Ok houses, w') →
  Forall (λ h, ∃ attrs contents,
            h = Tag (lit "li") attrs contents
            ∧ class_matches (lit "search-result") attrs = true)
         houses.
Proof.
  rewrite search_run.
  destruct (mapM get_html urls w) as [[docs|e] w1]; [|done].
  intros [= <- _]. clear.
  induction docs as [|d docs IH]; simpl; [done|].
  apply Forall_app. split; [apply listings_are_results|done].
Qed.

(** *** What resolving the pages can raise *)

Lemma int_errors (s : str) (e : exception) :
  int todecimal s = Raise e →
  e = ValueError_invalid_literal s ∨ e = ValueError_exceeds_limit.
Proof.
  unfold int, PyLong_FromString.
  destruct (read_sign _) as [sign s2].
  destruct (startswith s2 [95]); [by intros [= <-]; left|].
  destruct (scan_digits _ _ _ _) as [[[v d] rest]|]; [|by intros [= <-]; left].
  destruct (decide _); [by intros [= <-]; right|].
  destruct d; [by intros [= <-]; left|].
  destruct (skip_space rest); [done|by intros [= <-]; left].
Qed.

Lemma mapM_Raise_inv {A B} (f : A → result B) (l : list A) (e : exception) :
  mapM f l = Raise e → ∃ x, x ∈ l ∧ f x = Raise e.
Proof.
  induction l as [|x l IH]; simpl; [done|].
  destruct (f x) as [y|e'] eqn:Hx; simpl.
  - destruct (mapM f l) as [k|e']; simpl; [done|].
    intros [= ->]. destruct IH as (x' & Hin & Hx'); [done|].
    exists x'. split; [by right|done].
  - intros [= ->]. exists x. split; [left|done].
Qed.

Lemma page_number_errors (html a : node) (e : exception) :
  a ∈ select html (lit "a") (lit "data-pagination-page") →
  page_number todecimal a = Raise e →
  (∃ s, e = ValueError_invalid_literal s) ∨ e = ValueError_exceeds_limit
  ∨ e = TypeError_int_argument.
Proof.
  unfold select. intros [Ha _]%list_elem_of_filter.
  destruct a as [| |name attrs contents]; simpl in Ha; try done.
  apply andb_prop in Ha as [_ [v Hv]%bool_decide_eq_true].
  unfold page_number, getitem. rewrite Hv. simpl.
  destruct v as [s|l]; [|intros [= <-]; by do 2 right].
  intros [->| ->]%int_errors; [left; by eexists|right; by left].
Qed.

(** When the seed document has been fetched, [construct_page_urls] can
    only raise a [ValueError] (a page number that is no integer literal
    or has too many digits, or no pagination link at all) or the
    [TypeError] of a list-valued attribute: the subscript
    [a['data-pagination-page']] itself never fails, because [select] has
    returned only elements that carry the attribute. *)
Theorem construct_page_urls_errors (base_url : str) (w w' : World Net)
        (resp : Response) (n' : Net) (e : exception) :
  requests_get base_url HEADERS (net w) = (Ok resp, n') →
  construct_page_urls base_url w = (Raise e, w') →
  ((∃ s, e = ValueError_invalid_literal s) ∨ e = ValueError_exceeds_limit
   ∨ e = TypeError_int_argument ∨ e = ValueError_max_empty)
  ∧ (e = ValueError_max_empty ↔ page_links resp = [])
  ∧ Forall (λ a, ∃ v, getitem a (lit "data-pagination-page") = Ok v)
           (page_links resp).
Proof.
  intros Hget. rewrite construct_page_urls_run, Hget.
  assert (Forall (λ a, ∃ v, getitem a (lit "data-pagination-page") = Ok v)
                 (page_links resp)) as Hkeys.
  { apply Forall_forall. intros a [Ha _]%list_elem_of_filter.
    destruct a as [| |name attrs contents]; simpl in Ha; try done.
    apply andb_prop in Ha as [_ [v Hv]%bool_decide_eq_true].
    exists v. simpl. by rewrite Hv. }
  destruct (mapM _ _) as [nums|e'] eqn:Hnums; simpl.
  - destruct nums as [|x nums]; simpl; [|done]. intros [= <- _].
    split; [by do 3 right|]. split; [|done]. split; [|done]. intros _.
    destruct (page_links resp) as [|a l]; [done|]. simpl in Hnums.
    destruct (page_number todecimal a); simpl in Hnums; [|done].
    by destruct (mapM _ l).
  - intros [= <- _]. apply mapM_Raise_inv in Hnums as (a & Ha & He).
    pose proof (page_number_errors _ _ _ Ha He) as Hcases.
    split; [destruct Hcases as [?|[?|?]]; auto|]. split; [|done].
    split.
    + intros ->. by destruct Hcases as [[? ?]|[?|?]].
    + intros Hnil. rewrite Hnil in Ha. by apply elem_of_nil in Ha.
Qed.

(** A pagination link whose page number [int] rejects ends the run, also
    when the other links are in order. *)
Theorem construct_page_urls_bad_attribute (base_url csv_file : str)
        (w : World Net) (resp : Response) (n' : Net) (a : node)
        (e : exception) :
  requests_get base_url HEADERS (net w) = (Ok resp, n') →
  a ∈ page_links resp →
  page_number todecimal a = Raise e →
  ∃ e', construct_page_urls base_url w = (Raise e', set_net w n')
        ∧ export_prices base_url csv_file w = (Raise e', set_net w n').
Proof.
  intros Hget Ha He.
  destruct (mapM_Raise _ _ _ _ Ha He) as [e' Hnums]. exists e'.
  assert (construct_page_urls base_url w = (Raise e', set_net w n')) as Hurls.
  { by rewrite construct_page_urls_run, Hget, Hnums. }
  by rewrite export_prices_run, Hurls.
Qed.

(** Page numbers that are all zero or negative give no page URL at all:
    nothing more is requested, and the run writes the header row alone. *)
Theorem construct_page_urls_no_pages (base_url csv_file : str)
        (w : World Net) (resp : Response) (n' : Net) (nums : list Z)
        (n : Z) :
  requests_get base_url HEADERS (net w) = (Ok resp, n') →
  mapM (page_number todecimal) (page_links resp) = Ok nums →
  max nums = Ok n →
  (n ≤ 0)%Z →
  open_error w csv_file = None →
  construct_page_urls base_url w = (Ok [], set_net w n')
  ∧ export_prices base_url csv_file w
    = (Ok (),
       set_files (set_net w n')
         (<[csv_file := row_text CSV_OPTIONS COLUMN_HEADERS]> (files w))).
Proof.
  intros Hget Hnums Hmax Hn Hopen.
  assert (construct_page_urls base_url w = (Ok [], set_net w n')) as Hurls.
  { rewrite construct_page_urls_run, Hget, Hnums. simpl. rewrite Hmax.
    unfold Spec.page_urls. by replace (Z.to_nat n) with 0%nat by lia. }
  split; [done|].
  rewrite export_prices_run, Hurls. cbn [Prices.search Prices.search_loop].
  unfold mret, IO_ret. cbn [mapM mret result_ret]. cbn [open_error set_net].
  by rewrite Hopen.
Qed.

(** The page URLs are pairwise distinct and none of them is the seed
    URL: a run requests the seed and then each page once. *)
Theorem construct_page_urls_distinct (base_url : str) (w w' : World Net)
        (urls : list str) :
  construct_page_urls base_url w = (Ok urls, w') →
  NoDup urls ∧ base_url ∉ urls.
Proof.
  rewrite construct_page_urls_run.
  destruct (requests_get base_url HEADERS (net w)) as [[resp|e] n0]; [|done].
  destruct (mapM _ _ ≫= max) as [n|e]; [|done].
  intros [= <- _]. unfold Spec.page_urls. split.
  - apply NoDup_fmap_2; [|apply NoDup_seq].
    intros i j Hij. unfold Spec.nth_page_url in Hij.
    apply app_inv_head, app_inv_head, str_of_int_inj in Hij. lia.
  - intros (i & Hi & _)%list_elem_of_fmap. unfold Spec.nth_page_url in Hi.
    apply (f_equal length) in Hi. rewrite !length_app in Hi. simpl in Hi. lia.
Qed.

(** *** Rows *)

Lemma mapM_first_Raise {A B} (f : A → result B) (good rest : list A)
      (bad : A) (e : exception) :
  Forall (λ x, ∃ y, f x = Ok y) good → f bad = Raise e →
  mapM f (good ++ bad :: rest) = Raise e.
Proof.
  intros Hgood Hbad. induction Hgood as [|x good [y Hx] _ IH]; simpl.
  - by rewrite Hbad.
  - by rewrite Hx, IH.
Qed.

(** The run ends with the exception of the first listing, in page order
    and then document order, that has no row; listings behind it are not
    looked at. *)
Theorem export_prices_first_failure (base_url csv_file : str)
        (w w1 w2 : World Net) (urls : list str)
        (good rest : list node) (bad : node) (e : exception) :
  construct_page_urls base_url w = (Ok urls, w1) →
  search urls w1 = (Ok (good ++ bad :: rest), w2) →
  Forall (λ h, ∃ row, price_row todecimal h = Ok row) good →
  price_row todecimal bad = Raise e →
  export_prices base_url csv_file w = (Raise e, w2).
Proof.
  intros H1 H2 Hgood Hbad.
  by rewrite export_prices_run, H1, H2, (mapM_first_Raise _ _ _ _ _ Hgood Hbad).
Qed.

(** A listing has a row exactly when it has a title heading and a price
    element whose cleaned text [int] accepts; the row then holds the
    stripped heading text and that integer. *)
Theorem price_row_Ok_iff (house_html : node) (address : str) (price : Z) :
  price_row todecimal house_html = Ok (address, price)
  ↔ ∃ h2 span,
      find house_html (lit "h2") (lit "search-result__header-title") = Some h2
      ∧ find house_html (lit "span") (lit "search-result-price") = Some span
      ∧ address = strip (text h2)
      ∧ clean_price todecimal (text span) = Ok price.
Proof.
  unfold price_row, parse_address, parse_price, clean_address. split.
  - destruct (find _ (lit "h2") _) as [h2|]; [simpl|done].
    destruct (find _ (lit "span") _) as [span|]; [simpl|done].
    destruct (clean_price _ _) as [p|] eqn:Hp; [simpl|done].
    intros [= <- <-]. by exists h2, span.
  - intros (h2 & span & -> & -> & -> & Hp). simpl. by rewrite Hp.
Qed.

(** A title heading with nothing but white space in it gives the empty
    address, not an error. *)
Theorem parse_address_blank (house_html h2 : node) :
  find house_html (lit "h2") (lit "search-result__header-title") = Some h2 →
  Forall (λ c, Py_UNICODE_ISSPACE c = true) (text h2) →
  parse_address house_html = Ok [].
Proof.
  intros Hfind Hblank. unfold parse_address, clean_address.
  rewrite Hfind. simpl. by rewrite strip_spaces.
Qed.

(** A price text that is a plain decimal number, with or without a minus
    sign, comes back as that number: reading the price column of the
    output with [clean_price] returns the prices written. *)
Theorem clean_price_str_of_int (z : Z) :
  (length (str_of_int (Z.abs z)) ≤ int_max_str_digits)%nat →
  clean_price todecimal (str_of_int z) = Ok z.
Proof.
  intros Hlen. unfold clean_price.
  assert (∀ (c : N) old' new, c ≠ 45 ∧ (c < 48 ∨ 57 < c) →
            replace (str_of_int z) (c :: old') new = str_of_int z) as Hid.
  { intros c old' new Hc. apply replace_absent. intros Hin.
    pose proof (str_of_int_chars z) as Hchars.
    rewrite Forall_forall in Hchars. apply Hchars in Hin. lia. }
  change (lit "€ ") with (8364 :: [32]).
  change (lit " k.k.") with (32 :: lit "k.k.").
  change (lit " v.o.n.") with (32 :: lit "v.o.n.").
  change (lit "Price on request") with (80 :: lit "rice on request").
  change (lit ".") with (46 :: []).
  change (lit ",") with (44 :: []).
  rewrite !Hid by lia. by apply int_str_of_int.
Qed.
End More.

(** ** The requests of a run *)

Section Requests.
Import Py Soup Csv Prices Run RunFacts Trace.
Context {Net : Type}.
Variable requests_get : str → list (str * str) → Net → result Response * Net.
Variable html_parser : list N → list node.
Variable todecimal : N → option N.

Abbreviation Log := (list (str * list (str * str))).
Abbreviation get_html_logged :=
  (get_html (logged requests_get) html_parser).

Lemma logged_get_html (url : str) (w w' : World (Net * Log)) r :
  get_html (logged requests_get) html_parser url w = (r, w') →
  (net w').2 = (net w).2 ++ [(url, HEADERS)].
Proof.
  rewrite get_html_run. unfold logged.
  destruct (requests_get url HEADERS (net w).1) as [[resp|e] n];
    by intros [= _ <-].
Qed.

Lemma logged_fetch_all (urls : list str) (w w' : World (Net * Log)) docs :
  mapM (get_html (logged requests_get) html_parser) urls w = (Ok docs, w') →
  (net w').2 = (net w).2 ++ map (λ url, (url, HEADERS)) urls.
Proof.
  revert w docs; induction urls as [|url urls IH]; intros w docs.
  - intros [= _ <-]. by rewrite app_nil_r.
  - cbn [mapM map]. rewrite bind_run.
    destruct (get_html_logged url w) as [[html|e] w1] eqn:H1; [|done].
    rewrite bind_run.
    destruct (mapM get_html_logged urls w1) as [[docs'|e] w2] eqn:H2;
      [|done].
    intros [= _ <-]. apply IH in H2. apply logged_get_html in H1.
    by rewrite H2, H1, <- app_assoc.
Qed.

(** On a network that records its requests, a run that returns has
    requested the seed URL and then the pages 1 to [n] in ascending
    order, each once and each with the headers of the settings; page 1 is
    requested although the seed has already shown it. *)
Theorem export_prices_requests (base_url csv_file : str)
        (w w' : World (Net * Log)) :
  export_prices (logged requests_get) html_parser todecimal
                base_url csv_file w = (Ok (), w') →
  ∃ n : Z,
    (net w').2
    = (net w).2
      ++ (base_url, Settings.request_headers)
         :: map (λ url, (url, Settings.request_headers))
                (Spec.page_urls base_url n).
Proof.
  intros (urls & w1 & houses & w2 & rows & H1 & H2 & _ & _ & _ & -> & _)
    %export_prices_Ok_inv.
  rewrite construct_page_urls_run in H1. unfold logged at 1 in H1.
  destruct (requests_get base_url HEADERS (net w).1) as [[resp|e] n0];
    [|done].
  destruct (mapM _ _ ≫= max) as [n|e]; [|done].
  injection H1 as <- <-. exists n.
  rewrite search_run in H2.
  destruct (mapM get_html_logged _ _) as [[docs|e] w3] eqn:Hdocs; [|done].
  injection H2 as _ <-. apply logged_fetch_all in Hdocs.
  cbn [net set_files] in *. rewrite Hdocs. cbn [net set_net snd].
  by rewrite <- app_assoc.
Qed.
End Requests.

(** ** The output determines the price list *)

Module CsvFacts2.
Import Py Csv Prices Run Trace PyFacts2.

Abbreviation doubled s :=
  (flat_map (λ c, if c =? quotechar CSV_OPTIONS then [c; c] else [c]) s).

(** Reading a quoted field back gives the field, whatever it holds. *)
Lemma unquote_quoted (s rest : str) :
  head rest ≠ Some 34 →
  unquote (doubled s ++ 34 :: rest) = Some (s, rest).
Proof.
  intros Hrest. change (quotechar CSV_OPTIONS) with 34.
  induction s as [|c s IH].
  - cbn [flat_map app unquote]. change (quotechar CSV_OPTIONS) with 34.
    rewrite N.eqb_refl. destruct rest as [|c' rest']; [done|].
    destruct (N.eqb_spec c' 34) as [->|]; [by destruct Hrest|done].
  - cbn [flat_map]. destruct (N.eqb_spec c 34) as [->|Hc].
    + cbn [app unquote]. change (quotechar CSV_OPTIONS) with 34.
      rewrite !N.eqb_refl. cbn. by rewrite IH.
    + cbn [app unquote]. change (quotechar CSV_OPTIONS) with 34.
      apply N.eqb_neq in Hc. rewrite Hc. by rewrite IH.
Qed.

Lemma price_row_text (t : str * Z) (rest : str) :
  row_text CSV_OPTIONS (row_of_tuple t) ++ rest
  = 34 :: (doubled t.1
           ++ 34 :: 44 :: 34
              :: (doubled (str_of_int t.2) ++ 34 :: 13 :: 10 :: rest)).
Proof.
  unfold row_text, row_of_tuple, quoted, lineterminator.
  cbn [map join_fields field_str].
  change (quotechar CSV_OPTIONS) with 34.
  change (delimiter CSV_OPTIONS) with 44.
  cbn [app]. f_equal. rewrite <- !app_assoc. cbn [app]. do 4 f_equal.
  by rewrite <- !app_assoc.
Qed.

Lemma price_rows_text_inj (l1 l2 : list (str * Z)) :
  rows_text CSV_OPTIONS (map row_of_tuple l1)
  = rows_text CSV_OPTIONS (map row_of_tuple l2) →
  l1 = l2.
Proof.
  unfold rows_text. revert l2.
  induction l1 as [|[a1 p1] l1 IH]; intros [|[a2 p2] l2]; cbn [map flat_map];
    rewrite ?price_row_text; try done.
  intros [= H]. apply (f_equal unquote) in H.
  rewrite !unquote_quoted in H by done. injection H as -> H.
  apply (f_equal unquote) in H.
  rewrite !unquote_quoted in H by done.
  injection H as ->%str_of_int_inj H. f_equal. by apply IH.
Qed.

(** Two price lists that give the same file are the same list: commas,
    quotes and line breaks inside an address cannot make a row pass for
    another. *)
Theorem export_text_inj (l1 l2 : list (str * Z)) :
  rows_text CSV_OPTIONS (COLUMN_HEADERS :: map row_of_tuple l1)
  = rows_text CSV_OPTIONS (COLUMN_HEADERS :: map row_of_tuple l2) →
  l1 = l2.
Proof.
  unfold rows_text. cbn [flat_map].
  intros H%app_inv_head. by apply price_rows_text_inj.
Qed.

End CsvFacts2.

(** ** These properties on the small site *)

Module Witness2.
Import Py Soup Csv Prices Run Trace Fixture.

(** The connection drops after the seed page has been served. *)
Lemma request_failure_propagates_witness :
  get_html (Outage.requests_get_until 1 site) (html_parser trees)
           (base_url ++ lit "/p1") (set_net world0 [base_url])
  = (Raise (RequestException 111),
     set_net world0 [base_url; base_url ++ lit "/p1"]).
Proof.
  apply (request_failure_propagates (Outage.requests_get_until 1 site)
           (html_parser trees) no_decimals (base_url ++ lit "/p1") csv_file
           (set_net world0 [base_url]) (RequestException 111)
           [base_url; base_url ++ lit "/p1"]).
  vm_compute. reflexivity.
Defined.

Lemma export_prices_frame_witness :
  files (export_prices (requests_get site) (html_parser trees) no_decimals
                       base_url csv_file world0).2 !! lit "README"
  = files world0 !! lit "README".
Proof.
  apply (export_prices_frame (requests_get site) (html_parser trees)
           no_decimals base_url csv_file world0 _ (Ok ())).
  - vm_compute. reflexivity.
  - vm_compute. discriminate.
Defined.

(** The third of four rows cannot be encoded: the header and two rows
    are left in the file. *)
Lemma export_prices_write_failure_witness :
  export_prices (requests_get site) (html_parser Outage.trees_surrogate)
                no_decimals base_url csv_file world0
  = (Raise UnicodeEncodeError,
     set_files world_fetched
       (<[csv_file :=
            rows_text CSV_OPTIONS
              [ [FStr (lit "Address"); FStr (lit "Price (euro)")];
                [FStr (lit "Main St 1"); FInt 350000];
                [FStr (lit "Side Rd 2a"); FInt 1250000] ]]>
          (files world0))).
Proof.
  apply (export_prices_write_failure (requests_get site)
           (html_parser Outage.trees_surrogate) no_decimals base_url
           csv_file world0 (set_net world0 [base_url]) world_fetched
           [base_url ++ lit "/p1"; base_url ++ lit "/p2"]
           [house1; house2; Outage.house_surrogate; house3]
           [(lit "Main St 1", 350000%Z); (lit "Side Rd 2a", 1250000%Z)]
           [(lit "Quay 3", 0%Z)] (55296 :: lit "Lane 5", 1%Z)).
  - vm_compute. reflexivity.
  - vm_compute. reflexivity.
  - vm_compute. reflexivity.
  - reflexivity.
  - repeat constructor.
  - reflexivity.
Defined.

Lemma export_prices_open_failure_witness :
  export_prices (requests_get site) (html_parser trees) no_decimals
                base_url csv_file Outage.world_locked
  = (Raise (OSError 2),
     set_net Outage.world_locked
       [base_url; base_url ++ lit "/p1"; base_url ++ lit "/p2"]).
Proof.
  apply (export_prices_open_failure (requests_get site) (html_parser trees)
           no_decimals base_url csv_file Outage.world_locked
           (set_net Outage.world_locked [base_url])
           (set_net Outage.world_locked
              [base_url; base_url ++ lit "/p1"; base_url ++ lit "/p2"])
           [base_url ++ lit "/p1"; base_url ++ lit "/p2"]
           [house1; house2; house3]
           [(lit "Main St 1", 350000%Z); (lit "Side Rd 2a", 1250000%Z);
            (lit "Quay 3", 0%Z)] 2);
    vm_compute; reflexivity.
Defined.

(** The stale price list of an earlier run leaves no trace. *)
Lemma export_prices_overwrites_witness :
  export_prices (requests_get site) (html_parser trees) no_decimals
                base_url csv_file Outage.world_rerun
  = export_prices (requests_get site) (html_parser trees) no_decimals
                  base_url csv_file world0.
Proof.
  transitivity
    (Ok (),
     (export_prices (requests_get site) (html_parser trees) no_decimals
                    base_url csv_file world0).2);
    [|vm_compute; reflexivity].
  apply (export_prices_overwrites (requests_get site) (html_parser trees)
           no_decimals base_url csv_file world0 _ (lit "stale")).
  vm_compute. reflexivity.
Defined.

Lemma search_only_results_witness :
  Forall (λ h, ∃ attrs contents,
            h = Tag (lit "li") attrs contents
            ∧ class_matches (lit "search-result") attrs = true)
         [house1; house2; house3].
Proof.
  apply (search_only_results (requests_get site) (html_parser trees)
           [base_url ++ lit "/p1"; base_url ++ lit "/p2"] world0
           (set_net world0 [base_url ++ lit "/p1"; base_url ++ lit "/p2"])).
  vm_compute. reflexivity.
Defined.

Lemma construct_page_urls_errors_witness :
  ((∃ s, ValueError_invalid_literal (lit "next")
         = ValueError_invalid_literal s)
   ∨ ValueError_invalid_literal (lit "next") = ValueError_exceeds_limit
   ∨ ValueError_invalid_literal (lit "next") = TypeError_int_argument
   ∨ ValueError_invalid_literal (lit "next") = ValueError_max_empty)
  ∧ (ValueError_invalid_literal (lit "next") = ValueError_max_empty
     ↔ select (document_of (html_parser Outage.trees) (ok "seedx"))
              (lit "a") (lit "data-pagination-page") = [])
  ∧ Forall (λ a, ∃ v, getitem a (lit "data-pagination-page") = Ok v)
           (select (document_of (html_parser Outage.trees) (ok "seedx"))
                   (lit "a") (lit "data-pagination-page")).
Proof.
  apply (construct_page_urls_errors (requests_get Outage.sitex)
           (html_parser Outage.trees) no_decimals base_url world0
           (set_net world0 [base_url]) (ok "seedx") [base_url]);
    vm_compute; reflexivity.
Defined.

Lemma construct_page_urls_bad_attribute_witness :
  ∃ e', construct_page_urls (requests_get Outage.sitex)
          (html_parser Outage.trees) no_decimals base_url world0
        = (Raise e', set_net world0 [base_url])
        ∧ export_prices (requests_get Outage.sitex)
            (html_parser Outage.trees) no_decimals base_url csv_file world0
          = (Raise e', set_net world0 [base_url]).
Proof.
  apply (construct_page_urls_bad_attribute (requests_get Outage.sitex)
           (html_parser Outage.trees) no_decimals base_url csv_file world0
           (ok "seedx") [base_url] (page_link "next")
           (ValueError_invalid_literal (lit "next"))).
  - vm_compute. reflexivity.
  - vm_compute. right. left.
  - vm_compute. reflexivity.
Defined.

Lemma construct_page_urls_no_pages_witness :
  construct_page_urls (requests_get Outage.site0) (html_parser Outage.trees)
                      no_decimals base_url world0
  = (Ok [], set_net world0 [base_url]).
Proof.
  apply (construct_page_urls_no_pages (requests_get Outage.site0)
           (html_parser Outage.trees) no_decimals base_url csv_file world0
           (ok "seed0") [base_url] [0; -1]%Z 0%Z);
    vm_compute; (reflexivity || discriminate).
Defined.

Lemma construct_page_urls_distinct_witness :
  NoDup [ lit "https://x/koop/y/p1"; lit "https://x/koop/y/p2";
          lit "https://x/koop/y/p3" ]
  ∧ base_url ∉ [ lit "https://x/koop/y/p1"; lit "https://x/koop/y/p2";
                 lit "https://x/koop/y/p3" ].
Proof.
  apply (construct_page_urls_distinct (requests_get site3)
           (html_parser trees) no_decimals base_url world0
           (set_net world0 [base_url])).
  vm_compute. reflexivity.
Defined.

Lemma export_prices_first_failure_witness :
  export_prices (requests_get site_bad) (html_parser trees) no_decimals
                base_url csv_file world0
  = (Raise (ValueError_invalid_literal (lit "400000 - 450000")),
     world_fetched).
Proof.
  apply (export_prices_first_failure (requests_get site_bad)
           (html_parser trees) no_decimals base_url csv_file world0
           (set_net world0 [base_url]) world_fetched
           [base_url ++ lit "/p1"; base_url ++ lit "/p2"]
           [house1; house2] [house3] house_bad).
  - vm_compute. reflexivity.
  - vm_compute. reflexivity.
  - repeat constructor; eexists; vm_compute; reflexivity.
  - vm_compute. reflexivity.
Defined.

Lemma parse_address_blank_witness :
  parse_address Outage.house_blank = Ok [].
Proof.
  apply (parse_address_blank Outage.house_blank
           (Tag (lit "h2")
                (classes ["search-result__header-title"; "fd-m-none"]%string)
                [NavigableString (lit "   ")])).
  - vm_compute. reflexivity.
  - vm_compute. repeat constructor.
Defined.

Lemma clean_price_str_of_int_witness :
  clean_price no_decimals (str_of_int (-1250000)) = Ok (-1250000)%Z.
Proof.
  apply (clean_price_str_of_int no_decimals (-1250000)%Z).
  vm_compute. lia.
Defined.

Lemma export_prices_requests_witness :
  ∃ n : Z,
    (net (export_prices (logged (requests_get site)) (html_parser trees)
            no_decimals base_url csv_file
            {| net := ([], []); files := ∅; open_error := λ _, None |}).2).2
    = [] ++ (base_url, Settings.request_headers)
         :: map (λ url, (url, Settings.request_headers))
                (Spec.page_urls base_url n).
Proof.
  apply (export_prices_requests (requests_get site) (html_parser trees)
           no_decimals base_url csv_file
           {| net := ([], []); files := ∅; open_error := λ _, None |}).
  vm_compute. reflexivity.
Defined.

Lemma export_text_inj_witness :
  [([97; 34; 44; 10], 5%Z)] = [([97; 34; 44; 10], 5%Z)].
Proof.
  apply (CsvFacts2.export_text_inj [([97; 34; 44; 10], 5%Z)]
                                    [([97; 34; 44; 10], 5%Z)]).
  reflexivity.
Defined.

End Witness2.
